(** * Batch startup scraper: a shallow embedding and its properties

    The development follows the two source files:

    - [startup_searcher.py]: class [StartupSearcher] with
      [search_startup_info] (prompt, one call of the query capability,
      extraction of a JSON object from the answer, three fall-back records);
    - [scrape.py]: class [BatchStartupScraper] with [scrape_startups],
      [_save_progress] and [generate_summary_report].

    Python values are the values of [json.loads]: the records that travel
    through the program are dictionaries read from the answer of the model
    or built by dictionary literals.  A dictionary keeps the order in which
    its keys were inserted, so it is an association list here.  Strings are
    sequences of bytes (the UTF-8 text of a Python [str]); every character
    the program looks for is ASCII. *)

From Stdlib Require Import String Ascii List ZArith Bool Lia QArith.
From Stdlib Require Import DecimalString DecimalZ DecimalPos DecimalN.
Import ListNotations.

#[local] Set Warnings "-register-all".

Local Open Scope string_scope.
Local Open Scope Z_scope.

(** ** Python primitives *)

Module Py.

(** The double quote, as a character and as a one-character string. *)
Definition dq : ascii := "034"%char.
Definition DQ : string := String dq EmptyString.
Definition LF : string := String "010"%char EmptyString.

(** Exceptions.  Every class below derives from [Exception]; the message
    is what [str(e)] returns.  The decoder below reports its
    [JSONDecodeError] as the answer [None], since the only handler of that
    class ignores the message. *)
Inductive exception : Type :=
| JSONDecodeError (msg : string)
| AttributeError (msg : string)
| IndexError (msg : string)
| TypeError (msg : string)
| ZeroDivisionError (msg : string)
| OSError (msg : string)
| APIError (msg : string).

Definition str_of_exception (e : exception) : string :=
  match e with
  | JSONDecodeError m | AttributeError m | IndexError m | TypeError m
  | ZeroDivisionError m | OSError m | APIError m => m
  end.

(** The outcome of evaluating an expression: a value or a raised
    exception. *)
Inductive result (A : Type) : Type :=
| Ok (a : A)
| Raise (e : exception).
Arguments Ok {A} a.
Arguments Raise {A} e.

Definition bind {A B : Type} (m : result A) (k : A -> result B) : result B :=
  match m with
  | Ok a => k a
  | Raise e => Raise e
  end.

(** [s.find(sub)]: the lowest index where [sub] occurs, or [-1]. *)
Fixpoint find_from (sub s : string) (i : Z) : Z :=
  if String.prefix sub s then i
  else match s with
       | EmptyString => -1
       | String _ s' => find_from sub s' (i + 1)
       end.

Definition find (s sub : string) : Z := find_from sub s 0.

(** [s.rfind(sub)]: the highest index where [sub] occurs, or [-1]. *)
Fixpoint rfind_from (sub s : string) (i : Z) : Z :=
  match s with
  | EmptyString => if String.prefix sub EmptyString then i else -1
  | String _ s' =>
      let r := rfind_from sub s' (i + 1) in
      if r =? -1 then (if String.prefix sub s then i else -1) else r
  end.

Definition rfind (s sub : string) : Z := rfind_from sub s 0.

Definition len (s : string) : Z := Z.of_nat (String.length s).

(** A slice bound: a negative index counts from the end, and every bound
    is clamped to [0 .. len]. *)
Definition slice_bound (n i : Z) : Z :=
  if i <? 0 then Z.max 0 (i + n) else Z.min i n.

(** [s[start:stop]] *)
Definition slice (s : string) (start stop : Z) : string :=
  let a := slice_bound (len s) start in
  let b := slice_bound (len s) stop in
  if a <? b then String.substring (Z.to_nat a) (Z.to_nat (b - a)) s
  else EmptyString.

(** [s.lower()] on the ASCII letters.  No character outside ASCII has a
    lower case that is an ASCII letter of the words the program compares
    with, so the comparisons [s.lower() == "yes"] and [s.lower() == "no"]
    are decided by this function. *)
Definition lower_char (c : ascii) : ascii :=
  let n := nat_of_ascii c in
  if (65 <=? n)%nat && (n <=? 90)%nat then ascii_of_nat (n + 32) else c.

Fixpoint lower (s : string) : string :=
  match s with
  | EmptyString => EmptyString
  | String c s' => String (lower_char c) (lower s')
  end.

(** [s * n] *)
Fixpoint times (s : string) (n : nat) : string :=
  match n with
  | O => EmptyString
  | S n' => s ++ times s n'
  end.

(** [sub in s] for two strings. *)
Definition str_contains (s sub : string) : bool := negb (find s sub =? -1).

(** The characters of [str.isspace], each as the bytes of its UTF-8 form:
    U+0009 to U+000D, U+001C to U+0020, U+0085, U+00A0, U+1680, U+2000 to
    U+200A, U+2028, U+2029, U+202F, U+205F and U+3000. *)
Definition space1 (a : ascii) : bool :=
  let n := nat_of_ascii a in
  ((9 <=? n)%nat && (n <=? 13)%nat) || ((28 <=? n)%nat && (n <=? 32)%nat).

Definition space2 (a b : ascii) : bool :=
  Ascii.eqb a "194" && (Ascii.eqb b "133" || Ascii.eqb b "160").

Definition space3 (a b c : ascii) : bool :=
  let n := nat_of_ascii c in
  (Ascii.eqb a "225" && Ascii.eqb b "154" && Ascii.eqb c "128")
  || (Ascii.eqb a "226" && Ascii.eqb b "128"
      && (((128 <=? n)%nat && (n <=? 138)%nat)
          || Ascii.eqb c "168" || Ascii.eqb c "169" || Ascii.eqb c "175"))
  || (Ascii.eqb a "226" && Ascii.eqb b "129" && Ascii.eqb c "159")
  || (Ascii.eqb a "227" && Ascii.eqb b "128" && Ascii.eqb c "128").

(** The text is one character of white space. *)
Definition space_token (t : string) : bool :=
  match t with
  | String a EmptyString => space1 a
  | String a (String b EmptyString) => space2 a b
  | String a (String b (String c EmptyString)) => space3 a b c
  | _ => false
  end.

(** [s.lstrip()] *)
Fixpoint lstrip (s : string) : string :=
  match s with
  | EmptyString => s
  | String a r =>
      if space1 a then lstrip r
      else match r with
           | EmptyString => s
           | String b r2 =>
               if space2 a b then lstrip r2
               else match r2 with
                    | EmptyString => s
                    | String c r3 => if space3 a b c then lstrip r3 else s
                    end
           end
  end.

(** [s.rstrip()] *)
Fixpoint rstrip (s : string) : string :=
  match s with
  | EmptyString => EmptyString
  | String a r =>
      let t := String a (rstrip r) in
      if space_token t then EmptyString else t
  end.

(** [s.strip()] *)
Definition strip (s : string) : string := lstrip (rstrip s).

(** What a file opened in text mode hands out: a carriage return, alone or
    before a line feed, is read as a line feed. *)
Fixpoint universal_newlines (s : string) : string :=
  match s with
  | EmptyString => EmptyString
  | String c r =>
      if Ascii.eqb c "013" then
        match r with
        | String c' r' =>
            if Ascii.eqb c' "010" then String "010" (universal_newlines r')
            else String "010" (universal_newlines r)
        | EmptyString => String "010" EmptyString
        end
      else String c (universal_newlines r)
  end.

(** The lines of a text, each with its line feed when it has one. *)
Fixpoint split_lines (s : string) : list string :=
  match s with
  | EmptyString => nil
  | String c r =>
      if Ascii.eqb c "010" then String c EmptyString :: split_lines r
      else match split_lines r with
           | nil => String c EmptyString :: nil
           | l :: ls => String c l :: ls
           end
  end.

(** [f.readlines()] *)
Definition readlines (text : string) : list string :=
  split_lines (universal_newlines text).

End Py.

Import Py.

Notation "x <- m ;; k" := (Py.bind m (fun x => k))
  (at level 61, m at next level, right associativity).

(** ** Values and the [json] module

    [json.loads] and [json.dump] belong to Python's library.  The decoder
    below follows [json/decoder.py] and [json/scanner.py] (strict mode) and
    the encoder follows [json/encoder.py] with [indent=2] and
    [ensure_ascii=False], the way [_save_progress] calls it. *)

Module Json.

(** What [json.loads] can return.  A [float] is carried as the literal it
    was read from; the embedding never computes with it. *)
Inductive value : Type :=
| PyNone
| PyBool (b : bool)
| PyInt (n : Z)
| PyFloat (lit : string)
| PyStr (s : string)
| PyList (items : list value)
| PyDict (members : list (string * value)).

Definition dict : Type := list (string * value).

(** [type(v).__name__] *)
Definition type_name (v : value) : string :=
  match v with
  | PyNone => "NoneType"
  | PyBool _ => "bool"
  | PyInt _ => "int"
  | PyFloat _ => "float"
  | PyStr _ => "str"
  | PyList _ => "list"
  | PyDict _ => "dict"
  end.

(** *** Dictionaries *)

Fixpoint dict_lookup (d : dict) (k : string) : option value :=
  match d with
  | [] => None
  | (k', v) :: d' => if String.eqb k' k then Some v else dict_lookup d' k
  end.

Definition dict_has (d : dict) (k : string) : bool :=
  match dict_lookup d k with Some _ => true | None => false end.

(** [d[k] = v]: an existing key keeps its place, a new key goes last. *)
Fixpoint dict_set (d : dict) (k : string) (v : value) : dict :=
  match d with
  | [] => [(k, v)]
  | (k', v') :: d' =>
      if String.eqb k' k then (k', v) :: d' else (k', v') :: dict_set d' k v
  end.

(** [dict(pairs)] *)
Definition dict_of_pairs (pairs : list (string * value)) : dict :=
  fold_left (fun d kv => dict_set d (fst kv) (snd kv)) pairs [].

(** *** Decoder *)

Definition is_ws (c : ascii) : bool :=
  Ascii.eqb c " " || Ascii.eqb c "009" || Ascii.eqb c "010" || Ascii.eqb c "013".

Fixpoint skip_ws (s : string) : string :=
  match s with
  | String c r => if is_ws c then skip_ws r else s
  | EmptyString => s
  end.

Definition is_digit (c : ascii) : bool :=
  let n := nat_of_ascii c in (48 <=? n)%nat && (n <=? 57)%nat.

Definition hex_digit (c : ascii) : option N :=
  let n := N_of_ascii c in
  if (48 <=? n)%N && (n <=? 57)%N then Some (n - 48)%N
  else if (97 <=? n)%N && (n <=? 102)%N then Some (n - 87)%N
  else if (65 <=? n)%N && (n <=? 70)%N then Some (n - 55)%N
  else None.

(** [_decode_uXXXX]: four hexadecimal digits. *)
Definition hex4 (a b c d : ascii) : option N :=
  match hex_digit a, hex_digit b, hex_digit c, hex_digit d with
  | Some x, Some y, Some z, Some w => Some (((x * 16 + y) * 16 + z) * 16 + w)%N
  | _, _, _, _ => None
  end.

(** [chr(uni)], as the bytes of its UTF-8 form. *)
Definition byte (n : N) : ascii := ascii_of_N n.

Definition chr (u : N) : string :=
  if (u <? 128)%N then String (byte u) EmptyString
  else if (u <? 2048)%N then
    String (byte (192 + u / 64)) (String (byte (128 + u mod 64)) EmptyString)
  else if (u <? 65536)%N then
    String (byte (224 + u / 4096))
      (String (byte (128 + (u / 64) mod 64))
         (String (byte (128 + u mod 64)) EmptyString))
  else
    String (byte (240 + u / 262144))
      (String (byte (128 + (u / 4096) mod 64))
         (String (byte (128 + (u / 64) mod 64))
            (String (byte (128 + u mod 64)) EmptyString))).

Definition is_high_surrogate (u : N) : bool := (55296 <=? u)%N && (u <=? 56319)%N.
Definition is_low_surrogate (u : N) : bool := (56320 <=? u)%N && (u <=? 57343)%N.
Definition join_surrogates (u u2 : N) : N :=
  (65536 + ((u - 55296) * 1024 + (u2 - 56320)))%N.

(** The table [BACKSLASH] of the decoder. *)
Definition backslash : ascii := "092"%char.

Definition simple_escape (esc : ascii) : option ascii :=
  if Ascii.eqb esc dq then Some dq
  else if Ascii.eqb esc backslash then Some backslash
  else if Ascii.eqb esc "/" then Some "/"%char
  else if Ascii.eqb esc "b" then Some "008"%char
  else if Ascii.eqb esc "f" then Some "012"%char
  else if Ascii.eqb esc "n" then Some "010"%char
  else if Ascii.eqb esc "r" then Some "013"%char
  else if Ascii.eqb esc "t" then Some "009"%char
  else None.

Definition is_control (c : ascii) : bool := (nat_of_ascii c <? 32)%nat.

Definition push (pre : string) (res : option (string * string))
  : option (string * string) :=
  match res with
  | Some (t, out) => Some (pre ++ t, out)
  | None => None
  end.

(** [scanstring], called just after the opening quote: the decoded string
    and the text after the closing quote, or [None] for a
    [JSONDecodeError]. *)
Fixpoint scanstring (s : string) : option (string * string) :=
  match s with
  | EmptyString => None
  | String c r =>
    if Ascii.eqb c dq then Some (EmptyString, r)
    else if Ascii.eqb c backslash then
      match r with
      | EmptyString => None
      | String esc r1 =>
        if Ascii.eqb esc "u" then
          match r1 with
          | String h1 (String h2 (String h3 (String h4 r2))) =>
            match hex4 h1 h2 h3 h4 with
            | None => None
            | Some uni =>
              match r2 with
              | String b (String u' (String g1 (String g2 (String g3 (String g4 r3))))) =>
                if is_high_surrogate uni && Ascii.eqb b backslash && Ascii.eqb u' "u" then
                  match hex4 g1 g2 g3 g4 with
                  | None => None
                  | Some uni2 =>
                    if is_low_surrogate uni2
                    then push (chr (join_surrogates uni uni2)) (scanstring r3)
                    else push (chr uni) (scanstring r2)
                  end
                else push (chr uni) (scanstring r2)
              | _ => push (chr uni) (scanstring r2)
              end
            end
          | _ => None
          end
        else
          match simple_escape esc with
          | Some ch => push (String ch EmptyString) (scanstring r1)
          | None => None
          end
      end
    else if is_control c then None
    else push (String c EmptyString) (scanstring r)
  end.

(** The longest run of decimal digits at the front of a text. *)
Fixpoint span_digits (s : string) : string * string :=
  match s with
  | String c r =>
      if is_digit c then let (ds, rest) := span_digits r in (String c ds, rest)
      else (EmptyString, s)
  | EmptyString => (EmptyString, EmptyString)
  end.

(** [int(digits)] for a run of decimal digits. *)
Definition int_of_digits (ds : string) : Z :=
  match NilEmpty.uint_of_string ds with
  | Some u => Z.of_uint u
  | None => 0
  end.

(** The digits of the integer part of [NUMBER_RE]: a single zero, or a
    digit from 1 to 9 followed by any digits. *)
Definition match_digits (s : string) : option (string * string) :=
  match s with
  | String d r =>
      if Ascii.eqb d "0" then Some ("0", r)
      else if is_digit d then Some (span_digits s)
      else None
  | EmptyString => None
  end.

(** An optional minus sign. *)
Definition match_minus (s : string) : bool * string :=
  match s with
  | String c r => if Ascii.eqb c "-" then (true, r) else (false, s)
  | EmptyString => (false, s)
  end.

(** The integer part of [NUMBER_RE]. *)
Definition match_integer (s : string) : option (bool * string * string) :=
  let (neg, s1) := match_minus s in
  match match_digits s1 with
  | Some (ds, rest) => Some (neg, ds, rest)
  | None => None
  end.

(** The fraction of [NUMBER_RE]: a dot and at least one digit, or
    nothing. *)
Definition match_frac (s : string) : string * string :=
  match s with
  | String c r =>
      if Ascii.eqb c "." then
        let (ds, rest) := span_digits r in
        match ds with
        | EmptyString => (EmptyString, s)
        | _ => (String c ds, rest)
        end
      else (EmptyString, s)
  | EmptyString => (EmptyString, s)
  end.

(** An optional sign of the exponent. *)
Definition match_sign (s : string) : string * string :=
  match s with
  | String g r =>
      if Ascii.eqb g "-" || Ascii.eqb g "+" then (String g EmptyString, r)
      else (EmptyString, s)
  | EmptyString => (EmptyString, s)
  end.

(** The exponent of [NUMBER_RE]: the letter e in either case, an optional
    sign and at least one digit, or nothing. *)
Definition match_exp (s : string) : string * string :=
  match s with
  | String e r =>
      if Ascii.eqb e "e" || Ascii.eqb e "E" then
        let (sign, r1) := match_sign r in
        let (ds, rest) := span_digits r1 in
        match ds with
        | EmptyString => (EmptyString, s)
        | _ => (String e (sign ++ ds), rest)
        end
      else (EmptyString, s)
  | EmptyString => (EmptyString, s)
  end.

(** [match_number] of the scanner: an [int] when the literal has neither
    fraction nor exponent, a [float] otherwise. *)
Definition match_number (s : string) : option (value * string) :=
  match match_integer s with
  | None => None
  | Some (neg, ds, r) =>
      let (frac, r1) := match_frac r in
      let (exp, r2) := match_exp r1 in
      match frac, exp with
      | EmptyString, EmptyString =>
          Some (PyInt (if neg then - int_of_digits ds else int_of_digits ds), r2)
      | _, _ =>
          Some (PyFloat ((if neg then "-" else "") ++ ds ++ frac ++ exp), r2)
      end
  end.

Fixpoint drop (n : nat) (s : string) : string :=
  match n, s with
  | S n', String _ r => drop n' r
  | _, _ => s
  end.

(** The outcome of a scanning step.  [OutOfFuel] is reached by no text
    that is scanned with the fuel [json_loads] gives
    (lemma [scan_once_fuel] below). *)
Inductive scan (A : Type) : Type :=
| Scanned (a : A) (rest : string)
| Invalid
| OutOfFuel.
Arguments Scanned {A} a rest.
Arguments Invalid {A}.
Arguments OutOfFuel {A}.

(** [scan_once] with [JSONObject] and [JSONArray].  [object_members] is
    the loop of [JSONObject], entered just after the opening quote of a
    key; [array_items] is the loop of [JSONArray], entered at a value. *)
Fixpoint scan_once (fuel : nat) (s : string) : scan value :=
  match fuel with
  | O => OutOfFuel
  | S fuel' =>
    match s with
    | EmptyString => Invalid
    | String c r =>
      if Ascii.eqb c dq then
        match scanstring r with
        | Some (str, rest) => Scanned (PyStr str) rest
        | None => Invalid
        end
      else if Ascii.eqb c "{" then
        match skip_ws r with
        | String c1 r1 =>
            if Ascii.eqb c1 dq then
              match object_members fuel' r1 with
              | Scanned pairs rest => Scanned (PyDict (dict_of_pairs pairs)) rest
              | Invalid => Invalid
              | OutOfFuel => OutOfFuel
              end
            else if Ascii.eqb c1 "}" then Scanned (PyDict []) r1
            else Invalid
        | EmptyString => Invalid
        end
      else if Ascii.eqb c "[" then
        match skip_ws r with
        | String c1 r1 =>
            if Ascii.eqb c1 "]" then Scanned (PyList []) r1
            else
              match array_items fuel' (String c1 r1) with
              | Scanned values rest => Scanned (PyList values) rest
              | Invalid => Invalid
              | OutOfFuel => OutOfFuel
              end
        | EmptyString => Invalid
        end
      else if String.prefix "null" s then Scanned PyNone (drop 4 s)
      else if String.prefix "true" s then Scanned (PyBool true) (drop 4 s)
      else if String.prefix "false" s then Scanned (PyBool false) (drop 5 s)
      else
        match match_number s with
        | Some (n, rest) => Scanned n rest
        | None =>
            if String.prefix "NaN" s then Scanned (PyFloat "NaN") (drop 3 s)
            else if String.prefix "Infinity" s then Scanned (PyFloat "Infinity") (drop 8 s)
            else if String.prefix "-Infinity" s then Scanned (PyFloat "-Infinity") (drop 9 s)
            else Invalid
        end
    end
  end

with object_members (fuel : nat) (s : string) : scan (list (string * value)) :=
  match fuel with
  | O => OutOfFuel
  | S fuel' =>
    match scanstring s with
    | None => Invalid
    | Some (key, r) =>
      match skip_ws r with
      | String c r1 =>
        if Ascii.eqb c ":" then
          match scan_once fuel' (skip_ws r1) with
          | Scanned v r2 =>
            match skip_ws r2 with
            | String c2 r3 =>
              if Ascii.eqb c2 "}" then Scanned [(key, v)] r3
              else if Ascii.eqb c2 "," then
                match skip_ws r3 with
                | String c3 r4 =>
                  if Ascii.eqb c3 dq then
                    match object_members fuel' r4 with
                    | Scanned pairs rest => Scanned ((key, v) :: pairs) rest
                    | Invalid => Invalid
                    | OutOfFuel => OutOfFuel
                    end
                  else Invalid
                | EmptyString => Invalid
                end
              else Invalid
            | EmptyString => Invalid
            end
          | Invalid => Invalid
          | OutOfFuel => OutOfFuel
          end
        else Invalid
      | EmptyString => Invalid
      end
    end
  end

with array_items (fuel : nat) (s : string) : scan (list value) :=
  match fuel with
  | O => OutOfFuel
  | S fuel' =>
    match scan_once fuel' s with
    | Scanned v r =>
      match skip_ws r with
      | String c r1 =>
        if Ascii.eqb c "]" then Scanned [v] r1
        else if Ascii.eqb c "," then
          match array_items fuel' (skip_ws r1) with
          | Scanned values rest => Scanned (v :: values) rest
          | Invalid => Invalid
          | OutOfFuel => OutOfFuel
          end
        else Invalid
      | EmptyString => Invalid
      end
    | Invalid => Invalid
    | OutOfFuel => OutOfFuel
    end
  end.

(** Every call of the scanner consumes at least one character, and each
    of the three functions spends one unit of fuel per call: twice the
    length of the text, and two more, is enough. *)
Definition fuel_for (s : string) : nat := 2 * String.length s + 2.

(** [json.loads(s)]: the decoded value, or [None] for a
    [JSONDecodeError].  The whole text must be one value between optional
    white space. *)
Definition json_loads (s : string) : option value :=
  match scan_once (fuel_for s) (skip_ws s) with
  | Scanned v rest =>
      match skip_ws rest with
      | EmptyString => Some v
      | String _ _ => None
      end
  | Invalid => None
  | OutOfFuel => None
  end.

End Json.

Module JsonEncoder.
Import Json.

(** *** Encoder: [json.dump(results, f, indent=2, ensure_ascii=False)] *)

Definition hex_char (n : N) : ascii :=
  if (n <? 10)%N then ascii_of_N (48 + n) else ascii_of_N (87 + n).

(** [ESCAPE_DCT]: the replacement of one character of a string. *)
Definition escape_char (c : ascii) : string :=
  if Ascii.eqb c dq then String backslash (String dq EmptyString)
  else if Ascii.eqb c backslash then String backslash (String backslash EmptyString)
  else if Ascii.eqb c "010" then String backslash "n"
  else if Ascii.eqb c "013" then String backslash "r"
  else if Ascii.eqb c "009" then String backslash "t"
  else if Ascii.eqb c "008" then String backslash "b"
  else if Ascii.eqb c "012" then String backslash "f"
  else if is_control c then
    String backslash
      (String "u" (String "0" (String "0"
         (String (hex_char (N_of_ascii c / 16))
            (String (hex_char (N_of_ascii c mod 16)) EmptyString)))))
  else String c EmptyString.

Fixpoint escape (s : string) : string :=
  match s with
  | EmptyString => EmptyString
  | String c r => escape_char c ++ escape r
  end.

(** [py_encode_basestring] *)
Definition encode_basestring (s : string) : string :=
  String dq (escape s ++ DQ).

Fixpoint indent (level : nat) : string :=
  match level with
  | O => EmptyString
  | S l => "  " ++ indent l
  end.

Definition newline_indent (level : nat) : string := LF ++ indent level.

(** [int.__repr__] *)
Definition repr_int (n : Z) : string := NilEmpty.string_of_int (Z.to_int n).

(** The items of [_iterencode_list] after the first: each is written after
    the separator. *)
Fixpoint join_items (enc : value -> string) (separator : string) (l : list value)
  : string :=
  match l with
  | [] => EmptyString
  | y :: l' => separator ++ enc y ++ join_items enc separator l'
  end.

(** The members of [_iterencode_dict] after the first. *)
Fixpoint join_members (enc : value -> string) (separator : string)
  (l : list (string * value)) : string :=
  match l with
  | [] => EmptyString
  | (k, y) :: l' =>
      separator ++ encode_basestring k ++ ": " ++ enc y ++ join_members enc separator l'
  end.

(** [_iterencode] at a nesting level, with [_iterencode_list] and
    [_iterencode_dict].  Where Python writes [float.__repr__] of a binary64
    value, the embedding writes the literal it carries; the properties below
    that speak of the encoder are stated for values without floats. *)
Fixpoint iterencode (level : nat) (o : value) : string :=
  match o with
  | PyNone => "null"
  | PyBool true => "true"
  | PyBool false => "false"
  | PyInt n => repr_int n
  | PyFloat lit => lit
  | PyStr s => encode_basestring s
  | PyList [] => "[]"
  | PyList (x :: xs) =>
      "[" ++ newline_indent (S level) ++ iterencode (S level) x
      ++ join_items (iterencode (S level)) ("," ++ newline_indent (S level)) xs
      ++ newline_indent level ++ "]"
  | PyDict [] => "{}"
  | PyDict ((k, x) :: xs) =>
      "{" ++ newline_indent (S level)
      ++ encode_basestring k ++ ": " ++ iterencode (S level) x
      ++ join_members (iterencode (S level)) ("," ++ newline_indent (S level)) xs
      ++ newline_indent level ++ "}"
  end.

Definition json_dumps (o : value) : string := iterencode 0 o.

End JsonEncoder.

(** ** [startup_searcher.py] *)

Module StartupSearcher.
Import Json.

(** The answer of [client.messages.create]: a message whose [content] is a
    list of blocks; a block of text has the attribute [text], another kind
    of block has not. *)
Inductive content_block : Type :=
| TextBlock (text : string)
| ToolUseBlock.

Record message : Type := { content : list content_block }.

(** The query capability [self.client.messages.create]: from the prompt to
    a message or a raised exception.  The model name, [max_tokens=2000]
    and the role of the single message are constants of the call. *)
Definition client : Type := string -> result message.

Definition prompt (startup_name : string) : string :=
  "Please search the web for information about the startup " ++ DQ ++ startup_name ++ DQ
  ++ " and provide:" ++ LF ++ LF
  ++ "1. A short paragraph (2-3 sentences) describing what they do" ++ LF
  ++ "2. Whether they are currently hiring (yes/no/unknown)" ++ LF
  ++ "3. Contact information (email, website, social media, etc.)" ++ LF ++ LF
  ++ "Please format your response as a JSON object with the following structure:" ++ LF
  ++ "{" ++ LF
  ++ "    " ++ DQ ++ "startup_name" ++ DQ ++ ": " ++ DQ ++ startup_name ++ DQ ++ "," ++ LF
  ++ "    " ++ DQ ++ "description" ++ DQ ++ ": " ++ DQ
  ++ "Brief description of what they do" ++ DQ ++ "," ++ LF
  ++ "    " ++ DQ ++ "keywords" ++ DQ ++ ": [" ++ DQ ++ "keyword1" ++ DQ ++ ", "
  ++ DQ ++ "keyword2" ++ DQ ++ ", ...]," ++ LF
  ++ "    " ++ DQ ++ "hiring_status" ++ DQ ++ ": " ++ DQ ++ "yes/no/unknown" ++ DQ ++ "," ++ LF
  ++ "    " ++ DQ ++ "contact_info" ++ DQ ++ ": {" ++ LF
  ++ "        " ++ DQ ++ "website" ++ DQ ++ ": " ++ DQ ++ "URL if found" ++ DQ ++ "," ++ LF
  ++ "        " ++ DQ ++ "email" ++ DQ ++ ": " ++ DQ ++ "email if found" ++ DQ ++ ", " ++ LF
  ++ "        " ++ DQ ++ "linkedin" ++ DQ ++ ": " ++ DQ ++ "LinkedIn URL if found" ++ DQ ++ "," ++ LF
  ++ "        " ++ DQ ++ "twitter" ++ DQ ++ ": " ++ DQ ++ "Twitter/X handle if found" ++ DQ ++ "," ++ LF
  ++ "        " ++ DQ ++ "other" ++ DQ ++ ": " ++ DQ ++ "Any other contact methods" ++ DQ ++ LF
  ++ "    }" ++ LF
  ++ "}" ++ LF ++ LF
  ++ "If you cannot find certain information, use " ++ DQ ++ "Not found" ++ DQ
  ++ " as the value.".

(** [response.content[0].text] *)
Definition first_text (response : message) : result string :=
  match content response with
  | [] => Raise (IndexError "list index out of range")
  | TextBlock text :: _ => Ok text
  | ToolUseBlock :: _ =>
      Raise (AttributeError "'ToolUseBlock' object has no attribute 'text'")
  end.

(** The dictionary literal that the three fall-back records share. *)
Definition contact_not_found : value :=
  PyDict [ ("website", PyStr "Not found");
           ("email", PyStr "Not found");
           ("linkedin", PyStr "Not found");
           ("twitter", PyStr "Not found");
           ("other", PyStr "Not found") ].

(** Which of the three ways through the inner [try] produced a record:
    the parsed object, the [else] of the test on the two indices, or the
    handler of [json.JSONDecodeError]. *)
Inductive branch : Type :=
| CleanJson
| NoBraces
| ParseFailure.

Definition no_braces_record (startup_name response_text : string) : value :=
  PyDict [ ("startup_name", PyStr startup_name);
           ("description", PyStr response_text);
           ("hiring_status", PyStr "unknown");
           ("contact_info", contact_not_found) ].

Definition parse_failure_record (startup_name response_text : string) : value :=
  PyDict [ ("startup_name", PyStr startup_name);
           ("description", PyStr response_text);
           ("hiring_status", PyStr "unknown");
           ("contact_info", contact_not_found);
           ("raw_response", PyStr response_text) ].

Definition error_record (startup_name : string) (e : exception) : value :=
  PyDict [ ("startup_name", PyStr startup_name);
           ("error", PyStr ("Failed to search for startup: " ++ str_of_exception e));
           ("description", PyStr "Error occurred during search");
           ("hiring_status", PyStr "unknown");
           ("contact_info", contact_not_found) ].

(** The inner [try] of [search_startup_info] (the response normalizer),
    with the branch it went through. *)
Definition normalize_traced (startup_name response_text : string) : branch * value :=
  let start_idx := find response_text "{" in
  let end_idx := rfind response_text "}" + 1 in
  if negb (start_idx =? -1) && negb (end_idx =? -1) then
    let json_str := slice response_text start_idx end_idx in
    match json_loads json_str with
    | Some startup_info => (CleanJson, startup_info)
    | None => (ParseFailure, parse_failure_record startup_name response_text)
    end
  else (NoBraces, no_braces_record startup_name response_text).

Definition normalize (startup_name response_text : string) : value :=
  snd (normalize_traced startup_name response_text).

(** [search_startup_info]: the outer [try] catches every [Exception] of
    the call and of the extraction of the text. *)
Definition search_startup_info (create : client) (startup_name : string) : value :=
  match (response <- create (prompt startup_name) ;; first_text response) with
  | Ok response_text => normalize startup_name response_text
  | Raise e => error_record startup_name e
  end.

(** [StartupSearcher.__init__]: the key that was given or, when none or an
    empty one was given, the one of the environment (after [load_dotenv]);
    without a key the constructor raises [ValueError]. *)
Inductive construction : Type :=
| Constructed (api_key : string)
| ValueError (msg : string).

(** [bool(s)] for an optional text. *)
Definition given (o : option string) : bool :=
  match o with
  | Some k => negb (String.eqb k EmptyString)
  | None => false
  end.

Definition __init__ (api_key environment : option string) : construction :=
  let key := if given api_key then api_key else environment in
  match key with
  | Some k =>
      if String.eqb k EmptyString
      then ValueError "API key is required. Set ANTHROPIC_API_KEY environment variable or pass api_key parameter."
      else Constructed k
  | None =>
      ValueError "API key is required. Set ANTHROPIC_API_KEY environment variable or pass api_key parameter."
  end.

End StartupSearcher.

(** ** [scrape.py] *)

Module BatchStartupScraper.
Import Json JsonEncoder StartupSearcher.

(** *** Operations of Python on the values of a record *)

(** [key in o] *)
Definition py_in (key : string) (o : value) : result bool :=
  match o with
  | PyDict d => Ok (dict_has d key)
  | PyList l =>
      Ok (existsb (fun x => match x with
                            | PyStr s => String.eqb s key
                            | _ => false
                            end) l)
  | PyStr s => Ok (str_contains s key)
  | _ => Raise (TypeError ("argument of type '" ++ type_name o ++ "' is not iterable"))
  end.

(** [o.get(key, default)] *)
Definition py_get (o : value) (key : string) (default : value) : result value :=
  match o with
  | PyDict d =>
      Ok (match dict_lookup d key with Some v => v | None => default end)
  | _ => Raise (AttributeError ("'" ++ type_name o ++ "' object has no attribute 'get'"))
  end.

(** [o.lower()] *)
Definition py_lower (o : value) : result string :=
  match o with
  | PyStr s => Ok (lower s)
  | _ => Raise (AttributeError ("'" ++ type_name o ++ "' object has no attribute 'lower'"))
  end.

(** [o != s] for a string [s] *)
Definition py_ne_str (o : value) (s : string) : bool :=
  match o with
  | PyStr t => negb (String.eqb t s)
  | _ => true
  end.

(** The list comprehension [[r for r in results if p(r)]]: the first
    exception of the condition ends it. *)
Fixpoint py_filter (p : value -> result bool) (l : list value) : result (list value) :=
  match l with
  | [] => Ok []
  | r :: l' =>
      b <- p r ;;
      rest <- py_filter p l' ;;
      Ok (if b then r :: rest else rest)
  end.

(** *** The world of a run *)

(** What happens to one [open(filename, "w")] followed by [json.dump]:
    the text is written, or [open] raises and the file is left as it was,
    or the writing raises after some characters. *)
Inductive io_outcome : Type :=
| Written
| OpenFault (e : exception)
| WriteFault (kept : nat) (e : exception).

(** The two collaborators of a run, each asked by the number of the
    request: the query capability and the file system. *)
Record world : Type := {
  create : nat -> client;
  file_io : nat -> io_outcome
}.

Record state : Type := {
  api_calls : nat;                  (* calls of [messages.create] so far *)
  io_calls : nat;                   (* files opened for writing so far *)
  files : list (string * string);   (* the content of each file *)
  slept : list nat;                 (* the calls of [time.sleep] *)
  self_results : list value         (* the attribute [self.results] *)
}.

Definition initial : state :=
  {| api_calls := 0; io_calls := 0; files := []; slept := []; self_results := [] |}.

Fixpoint read_file (fs : list (string * string)) (filename : string) : option string :=
  match fs with
  | [] => None
  | (f, text) :: fs' => if String.eqb f filename then Some text else read_file fs' filename
  end.

Fixpoint store_file (fs : list (string * string)) (filename text : string)
  : list (string * string) :=
  match fs with
  | [] => [(filename, text)]
  | (f, t) :: fs' =>
      if String.eqb f filename then (f, text) :: fs'
      else (f, t) :: store_file fs' filename text
  end.

Definition take (n : nat) (s : string) : string := String.substring 0 n s.

(** [_save_progress]: the handler of [Exception] prints a warning and
    returns. *)
Definition _save_progress (w : world) (results : list value) (filename : string)
  (st : state) : state :=
  let text := json_dumps (PyList results) in
  let fs :=
    match file_io w (io_calls st) with
    | Written => store_file (files st) filename text
    | OpenFault _ => files st
    | WriteFault kept _ => store_file (files st) filename (take kept text)
    end in
  {| api_calls := api_calls st; io_calls := S (io_calls st); files := fs;
     slept := slept st; self_results := self_results st |}.

(** *** [scrape_startups] *)

(** The lines 76 to 91, "show brief result": what is printed is not kept,
    what can raise is. *)
Definition show_brief_result (startup_info : value) : result unit :=
  has_error <- py_in "error" startup_info ;;
  if negb has_error then
    status <- py_get startup_info "hiring_status" (PyStr "unknown") ;;
    l <- py_lower status ;;
    _ <- (if String.eqb l "yes" then Ok l else py_lower status) ;;
    contact_info <- py_get startup_info "contact_info" (PyDict []) ;;
    website <- py_get contact_info "website" (PyStr "Not found") ;;
    Ok tt
  else
    _ <- py_get startup_info "error" (PyStr "Unknown error") ;;
    Ok tt.

(** The record that the handler of the loop builds. *)
Definition error_info (startup_name : string) (e : exception) : value :=
  PyDict [ ("startup_name", PyStr startup_name);
           ("error", PyStr ("Unexpected error: " ++ str_of_exception e));
           ("description", PyStr "Error occurred during search");
           ("hiring_status", PyStr "unknown");
           ("contact_info", contact_not_found) ].

(** [if output_file:] *)
Definition configured (output_file : option string) : option string :=
  match output_file with
  | Some f => if String.eqb f EmptyString then None else Some f
  | None => None
  end.

Definition count_call (st : state) : state :=
  {| api_calls := S (api_calls st); io_calls := io_calls st; files := files st;
     slept := slept st; self_results := self_results st |}.

Definition sleep (delay : nat) (st : state) : state :=
  {| api_calls := api_calls st; io_calls := io_calls st; files := files st;
     slept := (slept st ++ [delay])%list; self_results := self_results st |}.

(** The [try] statement of the loop body, for one name. *)
Definition process (w : world) (output_file : option string)
  (results : list value) (st : state) (startup_name : string)
  : list value * state :=
  let startup_info := search_startup_info (create w (api_calls st)) startup_name in
  let st := count_call st in
  let results := (results ++ [startup_info])%list in
  match show_brief_result startup_info with
  | Ok _ =>
      match configured output_file with
      | Some filename => (results, _save_progress w results filename st)
      | None => (results, st)
      end
  | Raise e => ((results ++ [error_info startup_name e])%list, st)
  end.

(** The loop [for i, startup_name in enumerate(startup_list, 1)], from the
    index [i] on; [n] is [len(startup_list)]. *)
Fixpoint loop (w : world) (delay : nat) (output_file : option string) (n i : nat)
  (names : list string) (results : list value) (st : state) : list value * state :=
  match names with
  | [] => (results, st)
  | startup_name :: names' =>
      let (results, st) := process w output_file results st startup_name in
      let st := if (i <? n)%nat then sleep delay st else st in
      loop w delay output_file n (S i) names' results st
  end.

(** [scrape_startups(startup_list, output_file)] with [self.delay]: the
    returned list and the state it leaves. *)
Definition scrape_startups (w : world) (delay : nat) (startup_list : list string)
  (output_file : option string) (st : state) : list value * state :=
  match startup_list with
  | [] => ([], st)
  | _ =>
      let (results, st) :=
        loop w delay output_file (List.length startup_list) 1 startup_list [] st in
      (results,
       {| api_calls := api_calls st; io_calls := io_calls st; files := files st;
          slept := slept st; self_results := results |})
  end.

(** *** [generate_summary_report] *)

(** A line that the report prints.  Where Python formats a number into the
    line, the line keeps the text before it and the number. *)
Inductive line : Type :=
| Text (s : string)
| Stat (label : string) (n : Z)
| StatPct (label : string) (n : Z) (pct : Q)
| Company (name website : value)
| AndMore (n : Z).

(** What the report does that can be observed: it prints a line, or it
    divides two numbers. *)
Inductive event : Type :=
| Print (l : line)
| Divide (num den : Z).

Definition io (A : Type) : Type := list event * result A.

Definition ret {A : Type} (a : A) : io A := ([], Ok a).

Definition io_bind {A B : Type} (m : io A) (k : A -> io B) : io B :=
  match m with
  | (t, Ok a) => let (t', r) := k a in (t ++ t', r)%list
  | (t, Raise e) => (t, Raise e)
  end.

Definition lift {A : Type} (r : result A) : io A := ([], r).

Definition print (l : line) : io unit := ([Print l], Ok tt).

(** [num / den * 100]: the division raises [ZeroDivisionError] on a zero
    divisor.  The quotient is the exact ratio. *)
Definition percent (num den : Z) : io Q :=
  ([Divide num den],
   if den =? 0 then Raise (ZeroDivisionError "division by zero")
   else Ok (inject_Z num / inject_Z den * 100)%Q).

Definition print_pct (label : string) (n total : Z) : io unit :=
  io_bind (percent n total) (fun p => print (StatPct label n p)).

Definition has_status (word : string) (r : value) : result bool :=
  status <- py_get r "hiring_status" (PyStr "") ;;
  l <- py_lower status ;;
  Ok (String.eqb l word).

Definition has_contact (field : string) (r : value) : result bool :=
  contact_info <- py_get r "contact_info" (PyDict []) ;;
  v <- py_get contact_info field (PyStr "Not found") ;;
  Ok (py_ne_str v "Not found").

Definition count (p : value -> result bool) (results : list value) : result Z :=
  l <- py_filter p results ;;
  Ok (Z.of_nat (List.length l)).

(** The lines 178 to 189: the total and the hiring breakdown
    [(hiring_yes, hiring_no, hiring_unknown)]. *)
Definition hiring_analysis (results : list value) : result (Z * Z * Z) :=
  let total := Z.of_nat (List.length results) in
  hiring_yes <- count (has_status "yes") results ;;
  hiring_no <- count (has_status "no") results ;;
  let hiring_unknown := total - hiring_yes - hiring_no in
  Ok (hiring_yes, hiring_no, hiring_unknown).

Definition company_line (company : value) : result line :=
  name <- py_get company "startup_name" (PyStr "Unknown") ;;
  contact_info <- py_get company "contact_info" (PyDict []) ;;
  website <- py_get contact_info "website" (PyStr "No website") ;;
  Ok (Company name website).

Fixpoint print_companies (l : list value) : io unit :=
  match l with
  | [] => ret tt
  | company :: l' =>
      io_bind (lift (company_line company)) (fun ln =>
      io_bind (print ln) (fun _ => print_companies l'))
  end.

Definition generate_summary_report (self_results : list value)
  (results : option (list value)) : io unit :=
  let results := match results with Some r => r | None => self_results end in
  match results with
  | [] => print (Text "No results to analyze.")
  | _ =>
    io_bind (print (Text (LF ++ "📊 SUMMARY REPORT"))) (fun _ =>
    io_bind (print (Text (times "=" 50))) (fun _ =>
    let total := Z.of_nat (List.length results) in
    io_bind (lift (count (py_in "error") results)) (fun errors =>
    let successful := total - errors in
    io_bind (lift (hiring_analysis results)) (fun '(hiring_yes, hiring_no, hiring_unknown) =>
    io_bind (lift (count (has_contact "website") results)) (fun has_website =>
    io_bind (lift (count (has_contact "email") results)) (fun has_email =>
    io_bind (print (Text "📈 Processing Stats:")) (fun _ =>
    io_bind (print (Stat "   Total startups: " total)) (fun _ =>
    io_bind (print_pct "   Successful: " successful total) (fun _ =>
    io_bind (print_pct "   Errors: " errors total) (fun _ =>
    io_bind (print (Text (LF ++ "💼 Hiring Status:"))) (fun _ =>
    io_bind (print_pct "   Currently hiring: " hiring_yes total) (fun _ =>
    io_bind (print_pct "   Not hiring: " hiring_no total) (fun _ =>
    io_bind (print_pct "   Unknown: " hiring_unknown total) (fun _ =>
    io_bind (print (Text (LF ++ "📞 Contact Info Found:"))) (fun _ =>
    io_bind (print_pct "   Websites: " has_website total) (fun _ =>
    io_bind (print_pct "   Email addresses: " has_email total) (fun _ =>
    io_bind (lift (py_filter (has_status "yes") results)) (fun hiring_companies =>
    match hiring_companies with
    | [] => ret tt
    | _ =>
      io_bind (print (Text (LF ++ "✅ Companies Currently Hiring:"))) (fun _ =>
      io_bind (print_companies (firstn 10 hiring_companies)) (fun _ =>
      if (10 <? List.length hiring_companies)%nat
      then print (AndMore (Z.of_nat (List.length hiring_companies) - 10))
      else ret tt))
    end))))))))))))))))))
  end.

(** *** [read_startup_list] *)

(** [read_startup_list]: [file] is what opening and reading the file gives,
    its text or an exception ([FileNotFoundError] or another one); both
    handlers return the empty list. *)
Definition read_startup_list (file : result string) : list string :=
  match file with
  | Ok text =>
      map strip
        (filter (fun line => negb (String.eqb (strip line) EmptyString))
           (readlines text))
  | Raise _ => []
  end.

(** *** [save_results] *)

Definition count_io (fs : list (string * string)) (st : state) : state :=
  {| api_calls := api_calls st; io_calls := S (io_calls st); files := fs;
     slept := slept st; self_results := self_results st |}.

(** [save_results(results, filename)]: [timestamp] is
    [datetime.now().strftime("%Y%m%d_%H%M%S")].  The returned name is [None]
    when there is nothing to save and when the file could not be written;
    no file has the empty name, so [open] fails on it. *)
Definition save_results (w : world) (timestamp : string)
  (results : option (list value)) (filename : option string) (st : state)
  : option string * state :=
  let results := match results with Some r => r | None => self_results st end in
  match results with
  | [] => (None, st)
  | _ =>
      let filename :=
        match filename with
        | Some f => f
        | None => "startup_results_" ++ timestamp ++ ".json"
        end in
      let text := json_dumps (PyList results) in
      if String.eqb filename EmptyString then (None, count_io (files st) st)
      else
        match file_io w (io_calls st) with
        | Written => (Some filename, count_io (store_file (files st) filename text) st)
        | OpenFault _ => (None, count_io (files st) st)
        | WriteFault kept _ =>
            (None, count_io (store_file (files st) filename (take kept text)) st)
        end
  end.

(** *** [main] *)

(** [main()] of [scrape.py]: [environment] is the key of the environment,
    [list_txt] what reading [list.txt] gives, [answer] the line typed at the
    prompt ([None] when [input] raises).  The handler of [Exception] ends
    the function after a configuration fault and after a fault of the
    report; what is printed is not kept. *)
Definition main (w : world) (environment : option string) (list_txt : result string)
  (answer : option string) (timestamp : string) (st : state) : state :=
  match __init__ None environment with
  | ValueError _ => st
  | Constructed _ =>
      let startups := read_startup_list list_txt in
      match startups with
      | [] => st
      | _ =>
          match answer with
          | None => st
          | Some typed =>
              let proceed := lower (strip typed) in
              if negb (String.eqb proceed "y") then st
              else
                let (results, st) := scrape_startups w 2 startups None st in
                let (output_file, st) := save_results w timestamp (Some results) None st in
                let report := generate_summary_report (self_results st) (Some results) in
                st
          end
      end
  end.

End BatchStartupScraper.

(** ** [startup_searcher.py]: showing one record *)

Module StartupSearcherDisplay.
Import Json StartupSearcher BatchStartupScraper.

(** How a call of [print_startup_info] ends; [KeyError] is raised by a
    subscript with a key the record has not. *)
Inductive shown : Type :=
| Shown
| KeyError (key : string)
| Raised (e : exception).

(** [value.items()] *)
Definition py_items (o : value) : result dict :=
  match o with
  | PyDict d => Ok d
  | _ => Raise (AttributeError ("'" ++ type_name o ++ "' object has no attribute 'items'"))
  end.

(** [print_startup_info(startup_info)] for a dictionary: what is printed is
    not kept, what can raise is.  The loop over the items of [contact_info]
    tests and prints each value and cannot raise. *)
Definition print_startup_info (startup_info : dict) : shown :=
  match dict_lookup startup_info "startup_name" with
  | None => KeyError "startup_name"
  | Some _ =>
      if dict_has startup_info "error" then Shown
      else
        match dict_lookup startup_info "description" with
        | None => KeyError "description"
        | Some _ =>
            match dict_lookup startup_info "hiring_status" with
            | None => KeyError "hiring_status"
            | Some status =>
                match py_lower status with
                | Raise e => Raised e
                | Ok _ =>
                    match py_items
                            (match dict_lookup startup_info "contact_info" with
                             | Some c => c
                             | None => PyDict []
                             end) with
                    | Raise e => Raised e
                    | Ok _ => Shown
                    end
                end
            end
        end
  end.

End StartupSearcherDisplay.

(** * Vocabulary of the statements *)

Module Spec.
Import Json JsonEncoder StartupSearcher BatchStartupScraper.

(** The characters of a text. *)
Definition chars (s : string) : list ascii := list_ascii_of_string s.

(** [k in r] and [r[k]] for a record. *)
Definition field (r : value) (k : string) : option value :=
  match r with
  | PyDict d => dict_lookup d k
  | _ => None
  end.

(** The top-level fields of the schema the prompt asks for. *)
Definition schema_fields : list string :=
  ["startup_name"; "description"; "keywords"; "hiring_status"; "contact_info"].

Definition has_all_fields (r : value) : bool :=
  forallb (fun k => match field r k with Some _ => true | None => false end)
    schema_fields.

(** The text that [search_startup_info] hands to the inner [try], or the
    exception of the call. *)
Definition response_text (create : client) (startup_name : string) : result string :=
  response <- create (prompt startup_name) ;; first_text response.

(** The substring that the inner [try] gives to [json.loads]. *)
Definition json_str (response_text : string) : string :=
  slice response_text (find response_text "{") (rfind response_text "}" + 1).

(** A capability that always answers with the same text, and one that
    always fails. *)
Definition answering (text : string) : client :=
  fun _ => Ok {| content := [TextBlock text] |}.

Definition failing (e : exception) : client := fun _ => Raise e.


(** The word the aggregator compares: the lowered status, or the empty
    string of the default. *)
Definition status_word (d : dict) : string :=
  match dict_lookup d "hiring_status" with
  | Some (PyStr s) => lower s
  | Some _ => EmptyString
  | None => EmptyString
  end.

(** The status of a record, when it has one, is a string. *)
Definition status_is_text (d : dict) : Prop :=
  forall v, dict_lookup d "hiring_status" = Some v -> exists s, v = PyStr s.

Definition count_if {A : Type} (p : A -> bool) (l : list A) : Z :=
  Z.of_nat (List.length (filter p l)).

(** Some texts of answers. *)
Definition null_status_answer : string :=
  "{" ++ DQ ++ "hiring_status" ++ DQ ++ ": null}".


(** A world where the first answer has a null status and every later call
    times out, and where every file is written. *)
Definition null_status_world : world :=
  {| create := fun n =>
       match n with
       | O => answering null_status_answer
       | S _ => failing (APIError "timeout")
       end;
     file_io := fun _ => Written |}.

(** The keys of [contact_info]. *)
Definition contact_fields : list string :=
  ["website"; "email"; "linkedin"; "twitter"; "other"].

(** The record has a [contact_info] with exactly the five keys, each with
    the value ["Not found"]. *)
Definition every_contact_not_found (r : value) : Prop :=
  exists c, field r "contact_info" = Some (PyDict c) /\
            map fst c = contact_fields /\
            forall k v, In (k, v) c -> v = PyStr "Not found".

(** What the fall-back records and the error records have in common. *)
Definition placeholder_shape (r : value) (startup_name description : string) : Prop :=
  field r "startup_name" = Some (PyStr startup_name) /\
  field r "description" = Some (PyStr description) /\
  field r "hiring_status" = Some (PyStr "unknown") /\
  every_contact_not_found r.

(** A computation of the report divides by [total] only, and does not
    raise [ZeroDivisionError]. *)
Definition divides_only_by {A : Type} (total : Z) (m : io A) : Prop :=
  (forall num den, In (Divide num den) (fst m) -> den = total) /\
  (forall msg, snd m <> Raise (ZeroDivisionError msg)).

(** An expression does not raise [ZeroDivisionError]. *)
Definition no_zero_division {A : Type} (r : result A) : Prop :=
  forall msg, r <> Raise (ZeroDivisionError msg).

(** The keys of a list are pairwise different. *)
Fixpoint distinct (l : list string) : bool :=
  match l with
  | [] => true
  | k :: l' => negb (existsb (String.eqb k) l') && distinct l'
  end.

(** The invariant of the representation of dictionaries: in every
    dictionary of the value each key occurs once. *)
Fixpoint unique_keys (v : value) : bool :=
  match v with
  | PyList l => forallb unique_keys l
  | PyDict d => distinct (map fst d) && forallb (fun kv => unique_keys (snd kv)) d
  | _ => true
  end.

(** No [float] occurs in the value. *)
Fixpoint float_free (v : value) : bool :=
  match v with
  | PyFloat _ => false
  | PyList l => forallb float_free l
  | PyDict d => forallb (fun kv => float_free (snd kv)) d
  | _ => true
  end.

(** The number of nodes of a value, each item and member counted once
    more. *)
Fixpoint size (v : value) : nat :=
  match v with
  | PyList l => S (list_sum (map (fun x => S (size x)) l))
  | PyDict d => S (list_sum (map (fun kv => S (size (snd kv))) d))
  | _ => 1
  end.

(** A text at which a number literal ends: the empty text, or a character
    that continues no number. *)
Definition number_end (rest : string) : bool :=
  match rest with
  | EmptyString => true
  | String c _ =>
      negb (is_digit c || Ascii.eqb c "." || Ascii.eqb c "e" || Ascii.eqb c "E")
  end.

(** The encoded text of a value, followed by any text at which a number
    ends, is scanned back to the value and that text. *)
Definition decodes (v : value) : Prop :=
  forall (level fuel : nat) (rest : string),
    number_end rest = true -> (size v <= fuel)%nat ->
    scan_once fuel (iterencode level v ++ rest) = Scanned v rest.

(** A decimal numeral that starts with a digit from 1 to 9. *)
Definition nonzero_head (u : Decimal.uint) : bool :=
  match u with
  | Decimal.Nil => false
  | Decimal.D0 _ => false
  | _ => true
  end.

(** A character that starts a number literal. *)
Definition number_start (c : ascii) : bool := is_digit c || Ascii.eqb c "-".

(** A file of names, one on a line. *)
Fixpoint unlines (names : list string) : string :=
  match names with
  | [] => EmptyString
  | name :: names' => name ++ LF ++ unlines names'
  end.

(** A name as [read_startup_list] returns it: not empty, no white space
    around it. *)
Definition trimmed (name : string) : Prop :=
  name <> EmptyString /\ lstrip name = name /\ rstrip name = name.





(** A world that answers every call with the same clean record and writes
    every file. *)
Definition steady_world : world :=
  {| create := fun _ =>
       answering ("{" ++ DQ ++ "hiring_status" ++ DQ ++ ": " ++ DQ ++ "yes" ++ DQ ++ "}");
     file_io := fun _ => Written |}.

(** A dictionary in which each key occurs once. *)
Definition record_like (r : value) : Prop :=
  (exists d, r = PyDict d) /\ unique_keys r = true.









End Spec.

(** * Properties *)

Import Json JsonEncoder StartupSearcher BatchStartupScraper Spec.

(** ** Searching a text for a character *)

Section Find.

Variable c : ascii.
Lemma prefix_char (s : string) :
  String.prefix (String c EmptyString) s = true <-> exists r, s = String c r.
Proof.
  destruct s as [|a r]; simpl.
  - split; [discriminate | intros [r H]; discriminate].
  - destruct (ascii_dec c a) as [->|n].
    + split; [eauto | intros _; now destruct r].
    + split; [discriminate | intros [r' H]; congruence].
Qed.

Lemma find_from_range (s : string) : forall i,
  find_from (String c EmptyString) s i = -1 \/
  (i <= find_from (String c EmptyString) s i < i + len s).
Proof.
  induction s as [|a r IH]; intros i; simpl.
  - now left.
  - destruct (ascii_dec c a) as [->|n].
    + replace (String.prefix EmptyString r) with true by now destruct r.
      right. unfold len. simpl String.length. lia.
    + destruct (IH (i + 1)) as [H|H]; [now left|right].
      unfold len in *. simpl String.length. lia.
Qed.

Lemma find_from_absent (s : string) : forall i, 0 <= i ->
  (find_from (String c EmptyString) s i = -1 <-> ~ In c (chars s)).
Proof.
  induction s as [|a r IH]; intros i Hi; simpl.
  - split; [intros _ [] | reflexivity].
  - destruct (ascii_dec c a) as [->|n].
    + replace (String.prefix EmptyString r) with true by now destruct r.
      split; [lia | intros H; exfalso; apply H; now left].
    + rewrite (IH (i + 1)) by lia. split.
      * intros H [E|E]; [congruence | contradiction].
      * intros H E. apply H. now right.
Qed.

Lemma find_absent (s : string) : find s (String c EmptyString) = -1 <-> ~ In c (chars s).
Proof. apply find_from_absent. lia. Qed.

(** Where [find] answers an index, the text has the character there. *)
Lemma find_from_get (s : string) : forall i, find_from (String c EmptyString) s i <> -1 ->
  exists n, find_from (String c EmptyString) s i = i + Z.of_nat n /\ String.get n s = Some c.
Proof.
  induction s as [|a r IH]; intros i H; simpl in *.
  - contradiction.
  - destruct (ascii_dec c a) as [->|n].
    + replace (String.prefix EmptyString r) with true in * by now destruct r.
      exists O. split; [lia | reflexivity].
    + destruct (IH (i + 1) H) as (m & E & G).
      exists (S m). split; [lia | exact G].
Qed.

Lemma rfind_from_range (s : string) : forall i, 0 <= i ->
  rfind_from (String c EmptyString) s i = -1 \/ (i <= rfind_from (String c EmptyString) s i < i + len s).
Proof.
  induction s as [|a r IH]; intros i Hi; simpl.
  - now left.
  - destruct (IH (i + 1)) as [H|H]; [lia | |].
    + rewrite H. simpl. destruct (ascii_dec c a).
      * replace (String.prefix EmptyString r) with true by now destruct r.
        right. unfold len. simpl String.length. lia.
      * now left.
    + right. replace (rfind_from (String c EmptyString) r (i + 1) =? -1) with false
        by (symmetry; apply Z.eqb_neq; lia).
      unfold len in *. simpl String.length. lia.
Qed.

Lemma rfind_from_absent (s : string) : forall i, 0 <= i ->
  (rfind_from (String c EmptyString) s i = -1 <-> ~ In c (chars s)).
Proof.
  induction s as [|a r IH]; intros i Hi; simpl.
  - split; [intros _ [] | reflexivity].
  - specialize (IH (i + 1) ltac:(lia)).
    destruct (Z.eqb_spec (rfind_from (String c EmptyString) r (i + 1)) (-1)) as [E|E].
    + destruct (ascii_dec c a) as [->|n].
      * replace (String.prefix EmptyString r) with true by now destruct r.
        split; [lia | intros H; exfalso; apply H; now left].
      * split; [|reflexivity]. intros _ [F|F]; [congruence|].
        now apply IH in F.
    + split; [contradiction|]. intros H. exfalso. apply E, IH.
      intros F. apply H. now right.
Qed.

Lemma rfind_absent (s : string) : rfind s (String c EmptyString) = -1 <-> ~ In c (chars s).
Proof. apply rfind_from_absent. lia. Qed.

Lemma rfind_lower_bound (s : string) : -1 <= rfind s (String c EmptyString).
Proof. destruct (rfind_from_range s 0 ltac:(lia)) as [H|H]; unfold rfind; lia. Qed.

End Find.

(** ** Slices *)

Lemma slice_to_zero (s : string) (start : Z) : 0 <= start -> slice s start 0 = EmptyString.
Proof.
  intros H. unfold slice.
  assert (B : slice_bound (len s) 0 = 0).
  { unfold slice_bound, len. change (0 <? 0) with false. cbv iota. lia. }
  assert (A : 0 <= slice_bound (len s) start).
  { unfold slice_bound, len. destruct (start <? 0); lia. }
  rewrite B. destruct (Z.ltb_spec (slice_bound (len s) start) 0); [lia | reflexivity].
Qed.

Lemma substring_head (s : string) : forall n m ch,
  String.get n s = Some ch ->
  String.substring n (S m) s = String ch (String.substring 0 m (Json.drop (S n) s)).
Proof.
  induction s as [|a r IH]; intros n m ch H.
  - destruct n; discriminate.
  - destruct n as [|n]; simpl in *.
    + injection H as ->. reflexivity.
    + rewrite (IH _ _ _ H). reflexivity.
Qed.

(** A slice that starts where [find] found a character is empty or starts
    with that character. *)
Lemma slice_at_find (ch : ascii) (s : string) (stop : Z) :
  find s (String ch EmptyString) <> -1 ->
  slice s (find s (String ch EmptyString)) stop = EmptyString \/
  exists r, slice s (find s (String ch EmptyString)) stop = String ch r.
Proof.
  intros H. unfold find in *.
  destruct (find_from_get ch s 0 H) as (n & E & G).
  destruct (find_from_range ch s 0) as [F|F]; [contradiction|].
  rewrite E in *. unfold slice.
  destruct (_ <? _) eqn:L; [right|now left].
  apply Z.ltb_lt in L.
  assert (A : slice_bound (len s) (0 + Z.of_nat n) = Z.of_nat n).
  { unfold slice_bound. destruct (Z.ltb_spec (0 + Z.of_nat n) 0); lia. }
  rewrite A in *. rewrite Nat2Z.id.
  destruct (Z.to_nat (slice_bound (len s) stop - Z.of_nat n)) as [|m] eqn:M; [lia|].
  rewrite (substring_head s n m ch G). eauto.
Qed.

(** ** The response normalizer *)

Lemma json_loads_empty : json_loads EmptyString = None.
Proof. reflexivity. Qed.

Lemma contact_not_found_shape (d : dict) :
  dict_lookup d "contact_info" = Some contact_not_found ->
  every_contact_not_found (PyDict d).
Proof.
  intros H. exists [ ("website", PyStr "Not found"); ("email", PyStr "Not found");
                     ("linkedin", PyStr "Not found"); ("twitter", PyStr "Not found");
                     ("other", PyStr "Not found") ].
  split; [exact H | split; [reflexivity|]].
  intros k v [E|[E|[E|[E|[E|[]]]]]]; now inversion E.
Qed.

Lemma no_braces_record_shape (startup_name raw : string) :
  placeholder_shape (no_braces_record startup_name raw) startup_name raw /\
  field (no_braces_record startup_name raw) "raw_response" = None /\
  field (no_braces_record startup_name raw) "error" = None /\
  field (no_braces_record startup_name raw) "keywords" = None.
Proof.
  repeat split; try reflexivity. now apply contact_not_found_shape.
Qed.

Lemma parse_failure_record_shape (startup_name raw : string) :
  placeholder_shape (parse_failure_record startup_name raw) startup_name raw /\
  field (parse_failure_record startup_name raw) "raw_response" = Some (PyStr raw) /\
  field (parse_failure_record startup_name raw) "error" = None /\
  field (parse_failure_record startup_name raw) "keywords" = None.
Proof.
  repeat split; try reflexivity. now apply contact_not_found_shape.
Qed.

Lemma error_record_shape (startup_name : string) (e : exception) :
  placeholder_shape (error_record startup_name e) startup_name
    "Error occurred during search" /\
  field (error_record startup_name e) "error"
    = Some (PyStr ("Failed to search for startup: " ++ str_of_exception e)) /\
  field (error_record startup_name e) "raw_response" = None /\
  field (error_record startup_name e) "keywords" = None.
Proof.
  repeat split; try reflexivity. now apply contact_not_found_shape.
Qed.

(** The three ways through the normalizer, by the two tests it makes. *)
Lemma normalize_traced_cases (startup_name raw : string) :
  (find raw "{" = -1 /\
   normalize_traced startup_name raw = (NoBraces, no_braces_record startup_name raw)) \/
  (find raw "{" <> -1 /\ json_loads (json_str raw) = None /\
   normalize_traced startup_name raw
     = (ParseFailure, parse_failure_record startup_name raw)) \/
  (find raw "{" <> -1 /\ exists v, json_loads (json_str raw) = Some v /\
   normalize_traced startup_name raw = (CleanJson, v)).
Proof.
  unfold normalize_traced, json_str.
  destruct (Z.eqb_spec (find raw "{") (-1)) as [E|E]; simpl.
  - left. now split.
  - right.
    destruct (Z.eqb_spec (rfind raw "}" + 1) (-1)) as [F|F].
    + pose proof (rfind_lower_bound "}" raw). lia.
    + simpl. destruct (json_loads _) as [v|] eqn:J.
      * right. split; [exact E|]. now exists v.
      * left. now repeat split.
Qed.



(** C10: a text with an opening brace and no closing brace.  [rfind] answers
    [-1], so [end_idx] is [0]; the test [end_idx != -1] holds for every
    text; the extracted substring is empty, the decoder rejects it, and the
    record is the one of the decoding error, with the description and
    [raw_response] both equal to the text.  The branch without braces is
    taken exactly by the texts that have no opening brace. *)
Theorem open_brace_without_closing_brace (startup_name raw : string) :
  rfind raw "}" + 1 <> -1 /\
  (fst (normalize_traced startup_name raw) = NoBraces <-> ~ In "{"%char (chars raw)) /\
  (In "{"%char (chars raw) -> ~ In "}"%char (chars raw) ->
   rfind raw "}" + 1 = 0 /\
   json_str raw = EmptyString /\
   json_loads (json_str raw) = None /\
   normalize_traced startup_name raw
     = (ParseFailure, parse_failure_record startup_name raw) /\
   field (normalize startup_name raw) "description" = Some (PyStr raw) /\
   field (normalize startup_name raw) "raw_response" = Some (PyStr raw)).
Proof.
  split; [|split].
  - pose proof (rfind_lower_bound "}" raw). lia.
  - destruct (normalize_traced_cases startup_name raw)
      as [(E & ->)|[(E & J & ->)|(E & v & J & ->)]]; simpl.
    + split; [intros _; now apply find_absent | reflexivity].
    + split; [discriminate | intros H; now apply find_absent in H].
    + split; [discriminate | intros H; now apply find_absent in H].
  - intros Ho Hc.
    assert (R : rfind raw "}" = -1) by now apply rfind_absent.
    assert (F : find raw "{" <> -1) by (intros F; now apply find_absent in F).
    assert (S : json_str raw = EmptyString).
    { unfold json_str. rewrite R. apply slice_to_zero.
      destruct (find_from_range "{" raw 0) as [H|H]; [contradiction | apply H]. }
    assert (J : json_loads (json_str raw) = None) by (rewrite S; reflexivity).
    assert (T : normalize_traced startup_name raw
                = (ParseFailure, parse_failure_record startup_name raw)).
    { destruct (normalize_traced_cases startup_name raw)
        as [(E & _)|[(_ & _ & H)|(_ & v & J' & _)]];
        [contradiction | exact H | congruence]. }
    rewrite R. unfold normalize. rewrite T. simpl. repeat split; assumption.
Qed.

Lemma open_brace_without_closing_brace_witness :
  normalize_traced "Acme" "Sorry, { nothing"
  = (ParseFailure, parse_failure_record "Acme" "Sorry, { nothing").
Proof.
  destruct (open_brace_without_closing_brace "Acme" "Sorry, { nothing") as (_ & _ & H).
  apply H.
  - vm_compute. tauto.
  - vm_compute. intuition discriminate.
Defined.

(** ** [search_startup_info] *)

(** The decoder answers a dictionary for a text that starts with an opening
    brace. *)
Lemma json_loads_object (r : string) (v : value) :
  json_loads (String "{" r) = Some v -> exists d, v = PyDict d.
Proof.
  unfold json_loads.
  replace (fuel_for (String "{" r)) with (S (2 * String.length r + 3))%nat
    by (unfold fuel_for; simpl String.length; lia).
  change (skip_ws (String "{" r)) with (String "{" r).
  cbn [scan_once]. change (Ascii.eqb "{" dq) with false.
  change (Ascii.eqb "{" "{") with true. cbv iota.
  destruct (skip_ws r) as [|c1 r1]; [discriminate|].
  destruct (Ascii.eqb c1 dq).
  - destruct (object_members _ r1) as [pairs rest| |]; try discriminate.
    destruct (skip_ws rest); [|discriminate]. intros [= <-]. eauto.
  - destruct (Ascii.eqb c1 "}"); [|discriminate].
    destruct (skip_ws r1); [|discriminate]. intros [= <-]. eauto.
Qed.

(** What the inner [try] hands to the decoder is empty or starts with an
    opening brace, so a decoded answer is a dictionary. *)
Lemma clean_json_is_dict (raw : string) (v : value) :
  find raw "{" <> -1 -> json_loads (json_str raw) = Some v -> exists d, v = PyDict d.
Proof.
  intros F. unfold json_str.
  destruct (slice_at_find "{" raw (rfind raw "}" + 1) F) as [E|[r E]]; rewrite E.
  - discriminate.
  - apply json_loads_object.
Qed.

(** The four ways through [search_startup_info]. *)
Lemma search_startup_info_cases (create : client) (startup_name : string) :
  (exists e, response_text create startup_name = Raise e /\
             search_startup_info create startup_name = error_record startup_name e) \/
  (exists raw, response_text create startup_name = Ok raw /\
     (search_startup_info create startup_name = no_braces_record startup_name raw \/
      search_startup_info create startup_name = parse_failure_record startup_name raw \/
      exists d, json_loads (json_str raw) = Some (PyDict d) /\
                search_startup_info create startup_name = PyDict d)).
Proof.
  unfold search_startup_info, response_text.
  destruct (response <- create (prompt startup_name) ;; first_text response)
    as [raw|e].
  - right. exists raw. split; [reflexivity|]. unfold normalize.
    destruct (normalize_traced_cases startup_name raw)
      as [(E & ->)|[(E & J & ->)|(E & v & J & ->)]]; simpl.
    + now left.
    + right. now left.
    + right. right. destruct (clean_json_is_dict raw v E J) as [d ->]. eauto.
  - left. eauto.
Qed.

(** Every record of [search_startup_info] is a dictionary. *)
Lemma search_startup_info_dict (create : client) (startup_name : string) :
  exists d, search_startup_info create startup_name = PyDict d.
Proof.
  destruct (search_startup_info_cases create startup_name)
    as [(e & _ & ->)|(raw & _ & [->|[->|(d & _ & ->)]])];
    unfold error_record, no_braces_record, parse_failure_record; eauto.
Qed.

(** C5: when the call of the capability raises, or the text cannot be taken
    out of its answer, [search_startup_info] returns the error record: the
    message of the exception after ["Failed to search for startup: "], the
    description ["Error occurred during search"], the status ["unknown"]
    and every contact field ["Not found"]. *)
Theorem fault_gives_error_record (create : client) (startup_name : string)
  (e : exception) :
  response_text create startup_name = Raise e ->
  search_startup_info create startup_name = error_record startup_name e /\
  field (search_startup_info create startup_name) "error"
    = Some (PyStr ("Failed to search for startup: " ++ str_of_exception e)) /\
  placeholder_shape (search_startup_info create startup_name) startup_name
    "Error occurred during search".
Proof.
  intros H.
  assert (E : search_startup_info create startup_name = error_record startup_name e).
  { unfold search_startup_info. unfold response_text in H. now rewrite H. }
  rewrite E. split; [reflexivity|]. split; [reflexivity|].
  apply error_record_shape.
Qed.

Lemma fault_gives_error_record_witness :
  field (search_startup_info (failing (APIError "timeout")) "Widgetco") "error"
  = Some (PyStr "Failed to search for startup: timeout").
Proof.
  apply (fault_gives_error_record (failing (APIError "timeout")) "Widgetco"
           (APIError "timeout")).
  reflexivity.
Defined.

(** The same for an answer without any block of content. *)
Lemma empty_content_gives_error_record :
  search_startup_info (fun _ => Ok {| content := [] |}) "Widgetco"
  = error_record "Widgetco" (IndexError "list index out of range").
Proof. reflexivity. Qed.

(** C2, as stated, fails: the three fall-back records have no [keywords],
    and a decoded answer has the keys of the answer only. *)
Lemma not_all_fields_present :
  has_all_fields (search_startup_info (failing (APIError "timeout")) "Acme") = false /\
  has_all_fields
    (search_startup_info (answering "Sorry, I found nothing about Zyx123.") "Zyx123")
    = false /\
  has_all_fields
    (search_startup_info (answering "Here is data: {not valid json}") "Acme") = false /\
  has_all_fields (search_startup_info (answering "{}") "Acme") = false.
Proof. repeat split; vm_compute; reflexivity. Qed.

(** C2, amended: a record of [search_startup_info] is either the decoded
    answer itself, a dictionary with the keys the answer had, or one of the
    three records the function builds, and these have [startup_name],
    [description], [hiring_status] and [contact_info], and no [keywords]. *)
Theorem fields_of_record (create : client) (startup_name : string) :
  (exists raw d, response_text create startup_name = Ok raw /\
                 json_loads (json_str raw) = Some (PyDict d) /\
                 search_startup_info create startup_name = PyDict d) \/
  (exists description,
     placeholder_shape (search_startup_info create startup_name) startup_name description /\
     field (search_startup_info create startup_name) "keywords" = None).
Proof.
  destruct (search_startup_info_cases create startup_name)
    as [(e & _ & ->)|(raw & R & [->|[->|(d & J & ->)]])].
  - right. exists "Error occurred during search". split; apply error_record_shape.
  - right. exists raw. split; apply no_braces_record_shape.
  - right. exists raw. split; apply parse_failure_record_shape.
  - left. eauto.
Qed.



(** ** [scrape_startups] *)

(** One name adds one record, or two when the lines that show the record
    raise after it was appended. *)
Lemma process_length (w : world) (output_file : option string)
  (results : list value) (st : state) (startup_name : string) :
  let n := List.length (fst (process w output_file results st startup_name)) in
  (n = List.length results + 1 \/ n = List.length results + 2)%nat.
Proof.
  unfold process.
  destruct (show_brief_result _); [destruct (configured output_file)|];
    simpl; repeat rewrite length_app; simpl; lia.
Qed.

Lemma loop_length (w : world) (delay : nat) (output_file : option string) (n : nat)
  (names : list string) : forall i results st,
  let m := List.length (fst (loop w delay output_file n i names results st)) in
  (List.length results + List.length names <= m
   <= List.length results + 2 * List.length names)%nat.
Proof.
  induction names as [|name names IH]; intros i results st; simpl.
  - lia.
  - pose proof (process_length w output_file results st name) as P.
    destruct (process w output_file results st name) as [results' st'].
    simpl in P. specialize (IH (S i) results' (if (i <? n)%nat then sleep delay st' else st')).
    simpl in IH. lia.
Qed.

(** A run returns at least one record for each name and at most two. *)
Lemma scrape_startups_length (w : world) (delay : nat) (startup_list : list string)
  (output_file : option string) (st : state) :
  let m := List.length (fst (scrape_startups w delay startup_list output_file st)) in
  (List.length startup_list <= m <= 2 * List.length startup_list)%nat.
Proof.
  unfold scrape_startups. destruct startup_list as [|name names]; [simpl; lia|].
  pose proof (loop_length w delay output_file (List.length (name :: names))
                (name :: names) 1 [] st) as L.
  destruct (loop _ _ _ _ _ _ _ _) as [results st']. simpl in *. lia.
Qed.

(** When the lines that show a record never raise, a run returns exactly
    one record for each name. *)
Lemma scrape_startups_length_shown (w : world) (delay : nat)
  (startup_list : list string) (output_file : option string) (st : state) :
  (forall n startup_name,
     show_brief_result (search_startup_info (create w n) startup_name) = Ok tt) ->
  List.length (fst (scrape_startups w delay startup_list output_file st))
  = List.length startup_list.
Proof.
  intros Shown.
  assert (L : forall names n i results st',
            List.length (fst (loop w delay output_file n i names results st'))
            = (List.length results + List.length names)%nat).
  { induction names as [|name names IH]; intros n i results st'; simpl; [lia|].
    unfold process. rewrite Shown.
    destruct (configured output_file); rewrite IH, length_app; simpl; lia. }
  unfold scrape_startups. destruct startup_list as [|name names]; [reflexivity|].
  specialize (L (name :: names) (List.length (name :: names)) 1%nat [] st).
  destruct (loop _ _ _ _ _ _ _ _) as [results st']. exact L.
Qed.

(** C1, at the failing input: one name, and an answer whose status is
    [null].  The decoded record is appended, [status.lower()] raises
    [AttributeError], and the handler of the loop appends an error record
    for the same name: two records for one name. *)
Theorem two_records_for_one_name :
  fst (scrape_startups null_status_world 2 ["Acme"] None initial)
  = [ PyDict [("hiring_status", PyNone)];
      error_info "Acme" (AttributeError "'NoneType' object has no attribute 'lower'") ]
  /\ List.length (fst (scrape_startups null_status_world 2 ["Acme"] None initial)) = 2%nat.
Proof. split; vm_compute; reflexivity. Qed.


(** C3, at the failing input: a checkpoint is configured, the first answer
    has a [null] status.  After the first name the list holds two records
    and no file was opened: the handler of the loop does not call
    [_save_progress]. *)
Theorem no_checkpoint_after_handler :
  let out := process null_status_world (Some "out.json") [] initial "Acme" in
  fst out
  = [ PyDict [("hiring_status", PyNone)];
      error_info "Acme" (AttributeError "'NoneType' object has no attribute 'lower'") ]
  /\ io_calls (snd out) = 0%nat
  /\ read_file (files (snd out)) "out.json" = None.
Proof. repeat split; vm_compute; reflexivity. Qed.

(** ** [generate_summary_report] *)

Lemma py_filter_has_status (word : string) (ds : list dict) :
  Forall status_is_text ds ->
  py_filter (has_status word) (map PyDict ds)
  = Ok (map PyDict (filter (fun d => String.eqb (status_word d) word) ds)).
Proof.
  induction 1 as [|d ds Hd _ IH]; simpl; [reflexivity|].
  assert (S : has_status word (PyDict d) = Ok (String.eqb (status_word d) word)).
  { unfold has_status, status_word, py_get.
    destruct (dict_lookup d "hiring_status") as [v|] eqn:E; simpl;
      [destruct (Hd v E) as [s ->]|]; reflexivity. }
  rewrite S, IH. simpl. now destruct (String.eqb (status_word d) word).
Qed.

Lemma count_has_status (word : string) (ds : list dict) :
  Forall status_is_text ds ->
  count (has_status word) (map PyDict ds)
  = Ok (count_if (fun d => String.eqb (status_word d) word) ds).
Proof.
  intros H. unfold count, count_if. rewrite (py_filter_has_status word ds H).
  simpl. now rewrite length_map.
Qed.

(** Two conditions that exclude each other and the rest share a list. *)
Lemma count_three_ways {A : Type} (p q : A -> bool) (l : list A) :
  (forall a, p a = true -> q a = false) ->
  Z.of_nat (List.length l)
  = count_if p l + count_if q l + count_if (fun a => negb (p a) && negb (q a)) l.
Proof.
  intros X. unfold count_if. induction l as [|a l IH]; [reflexivity|].
  cbn [filter]. specialize (X a).
  destruct (p a), (q a); cbn [negb andb List.length];
    rewrite ?Nat2Z.inj_succ; first [discriminate (X eq_refl) | lia].
Qed.

(** C6, as stated, fails: a record whose status is [null] is in no bucket,
    the report stops with [AttributeError]. *)
Lemma null_status_breaks_report :
  hiring_analysis [PyDict [("startup_name", PyStr "Acme"); ("hiring_status", PyNone)]]
    = Raise (AttributeError "'NoneType' object has no attribute 'lower'") /\
  generate_summary_report []
    (Some [PyDict [("startup_name", PyStr "Acme"); ("hiring_status", PyNone)]])
    = ([Print (Text (LF ++ "📊 SUMMARY REPORT")); Print (Text (times "=" 50))],
       Raise (AttributeError "'NoneType' object has no attribute 'lower'")).
Proof. split; vm_compute; reflexivity. Qed.

(** C6, amended: for a non-empty list of records in which every status that
    is present is a string, the breakdown counts the records whose lowered
    status is ["yes"], those whose lowered status is ["no"], and takes the
    total minus the two for the rest.  The rest is the number of records
    whose status is neither, the records without a status and those with an
    empty status among them, and the three numbers add up to the total. *)
Theorem hiring_breakdown (ds : list dict) :
  ds <> [] ->
  Forall status_is_text ds ->
  let total := Z.of_nat (List.length ds) in
  let yes := count_if (fun d => String.eqb (status_word d) "yes") ds in
  let no := count_if (fun d => String.eqb (status_word d) "no") ds in
  hiring_analysis (map PyDict ds) = Ok (yes, no, total - yes - no) /\
  total - yes - no
  = count_if (fun d => negb (String.eqb (status_word d) "yes")
                       && negb (String.eqb (status_word d) "no")) ds /\
  yes + no + (total - yes - no) = total.
Proof.
  intros _ H total yes no. split; [|split].
  - unfold hiring_analysis.
    rewrite (count_has_status "yes" ds H), (count_has_status "no" ds H).
    simpl. now rewrite length_map.
  - subst total yes no.
    rewrite (count_three_ways (fun d => String.eqb (status_word d) "yes")
               (fun d => String.eqb (status_word d) "no") ds); [lia|].
    intros d E. apply String.eqb_eq in E. now rewrite E.
  - lia.
Qed.

Lemma hiring_breakdown_witness :
  hiring_analysis
    [ PyDict [("hiring_status", PyStr "YES")];
      PyDict [("hiring_status", PyStr "maybe")];
      PyDict [("hiring_status", PyStr "")];
      PyDict [("startup_name", PyStr "Acme")];
      PyDict [("hiring_status", PyStr "No")] ]
  = Ok (1, 1, 3).
Proof.
  apply (hiring_breakdown
           [ [("hiring_status", PyStr "YES")];
             [("hiring_status", PyStr "maybe")];
             [("hiring_status", PyStr "")];
             [("startup_name", PyStr "Acme")];
             [("hiring_status", PyStr "No")] ]).
  - discriminate.
  - repeat constructor; intros v E; vm_compute in E;
      first [discriminate | injection E as <-; eauto].
Defined.

(** *** Divisions of the report *)

Section Divisions.

Variable total : Z.
Hypothesis total_nonzero : total <> 0.

Lemma safe_ret {A : Type} (a : A) : divides_only_by total (ret a).
Proof. split; [intros num den [] | discriminate]. Qed.

Lemma safe_print (l : line) : divides_only_by total (print l).
Proof. split; [intros num den [H|[]]; discriminate | discriminate]. Qed.

Lemma safe_lift {A : Type} (r : result A) :
  no_zero_division r -> divides_only_by total (lift r).
Proof. intros H. split; [intros num den [] | exact H]. Qed.

Lemma safe_bind {A B : Type} (m : io A) (k : A -> io B) :
  divides_only_by total m -> (forall a, divides_only_by total (k a)) ->
  divides_only_by total (io_bind m k).
Proof.
  intros [Hm Zm] Hk. destruct m as [t [a|e]]; simpl in *.
  - destruct (Hk a) as [Ha Za]. destruct (k a) as [t' r]. simpl in *.
    split; [|exact Za]. intros num den H. apply in_app_or in H.
    destruct H; eauto.
  - split; [assumption|]. intros msg H. injection H as ->. now apply (Zm msg).
Qed.

Lemma safe_percent (num : Z) : divides_only_by total (percent num total).
Proof.
  unfold percent. split; simpl.
  - intros n d [H|[]]. now injection H.
  - apply Z.eqb_neq in total_nonzero. rewrite total_nonzero. discriminate.
Qed.

Lemma safe_print_pct (label : string) (n : Z) :
  divides_only_by total (print_pct label n total).
Proof. apply safe_bind; [apply safe_percent | intros; apply safe_print]. Qed.

End Divisions.

Lemma bind_no_zero_division {A B : Type} (m : result A) (k : A -> result B) :
  no_zero_division m -> (forall a, no_zero_division (k a)) ->
  no_zero_division (x <- m ;; k x).
Proof.
  intros Hm Hk. destruct m as [a|e]; simpl; [apply Hk|].
  intros msg H. injection H as ->. now apply (Hm msg).
Qed.

Lemma ok_no_zero_division {A : Type} (a : A) : no_zero_division (Ok a).
Proof. discriminate. Qed.

Lemma py_in_no_zero_division (key : string) (o : value) : no_zero_division (py_in key o).
Proof. destruct o; discriminate. Qed.

Lemma py_get_no_zero_division (o : value) (key : string) (default : value) :
  no_zero_division (py_get o key default).
Proof. destruct o; discriminate. Qed.

Lemma py_lower_no_zero_division (o : value) : no_zero_division (py_lower o).
Proof. destruct o; discriminate. Qed.

Create HintDb report.

#[local] Hint Resolve ok_no_zero_division py_in_no_zero_division
  py_get_no_zero_division py_lower_no_zero_division : report.

Lemma has_status_no_zero_division (word : string) (r : value) :
  no_zero_division (has_status word r).
Proof.
  unfold has_status. repeat (apply bind_no_zero_division; [auto with report | intros]).
  auto with report.
Qed.

Lemma has_contact_no_zero_division (fld : string) (r : value) :
  no_zero_division (has_contact fld r).
Proof.
  unfold has_contact. repeat (apply bind_no_zero_division; [auto with report | intros]).
  auto with report.
Qed.

Lemma company_line_no_zero_division (company : value) :
  no_zero_division (company_line company).
Proof.
  unfold company_line. repeat (apply bind_no_zero_division; [auto with report | intros]).
  auto with report.
Qed.

Lemma py_filter_no_zero_division (p : value -> result bool) (l : list value) :
  (forall r, no_zero_division (p r)) -> no_zero_division (py_filter p l).
Proof.
  intros Hp. induction l as [|r l IH]; simpl; [auto with report|].
  apply bind_no_zero_division; [apply Hp | intros b].
  apply bind_no_zero_division; [exact IH | intros; auto with report].
Qed.

Lemma count_no_zero_division (p : value -> result bool) (l : list value) :
  (forall r, no_zero_division (p r)) -> no_zero_division (count p l).
Proof.
  intros Hp. unfold count.
  apply bind_no_zero_division; [now apply py_filter_no_zero_division | auto with report].
Qed.

Lemma hiring_analysis_no_zero_division (l : list value) :
  no_zero_division (hiring_analysis l).
Proof.
  unfold hiring_analysis.
  apply bind_no_zero_division;
    [apply count_no_zero_division, has_status_no_zero_division | intros].
  apply bind_no_zero_division;
    [apply count_no_zero_division, has_status_no_zero_division | intros].
  auto with report.
Qed.

Lemma print_companies_safe (total : Z) (l : list value) :
  divides_only_by total (print_companies l).
Proof.
  induction l as [|company l IH]; cbn [print_companies]; [apply safe_ret|].
  apply safe_bind; [apply safe_lift, company_line_no_zero_division | intros].
  apply safe_bind; [apply safe_print | intros; exact IH].
Qed.

(** C8: on an empty list the report prints that there is nothing to analyze
    and does nothing else, so it divides nothing.  On a non-empty list every
    division it makes has the total as its divisor, the total is not zero,
    and the report does not raise [ZeroDivisionError]. *)
Theorem report_divisions (self_results : list value) (results : option (list value)) :
  let rs := match results with Some r => r | None => self_results end in
  (rs = [] ->
   generate_summary_report self_results results
   = ([Print (Text "No results to analyze.")], Ok tt) /\
   forall num den,
     ~ In (Divide num den) (fst (generate_summary_report self_results results))) /\
  (rs <> [] ->
   Z.of_nat (List.length rs) <> 0 /\
   divides_only_by (Z.of_nat (List.length rs))
     (generate_summary_report self_results results)).
Proof.
  intros rs. unfold generate_summary_report. fold rs. split.
  - intros ->. split; [reflexivity|]. intros num den [H|[]]. discriminate.
  - intros H. destruct rs as [|r rs']; [contradiction|].
    set (l := r :: rs') in *. set (total := Z.of_nat (List.length l)).
    assert (N : total <> 0) by (subst total l; simpl List.length; lia).
    split; [exact N|]. cbv iota.
    repeat first
      [ apply safe_print_pct; exact N
      | apply print_companies_safe
      | apply safe_print
      | apply safe_ret
      | apply safe_bind; [|intros]
      | apply safe_lift
      | apply count_no_zero_division; intros
      | apply py_filter_no_zero_division; intros
      | apply hiring_analysis_no_zero_division
      | apply has_status_no_zero_division
      | apply has_contact_no_zero_division
      | apply py_in_no_zero_division
      | match goal with
        | a : (Z * Z * Z)%type |- _ => destruct a as [[? ?] ?]
        | |- divides_only_by _ (match ?x with [] => _ | _ :: _ => _ end) => destruct x
        | |- divides_only_by _ (if ?b then _ else _) => destruct b
        end ].
Qed.

Lemma report_divisions_witness :
  Z.of_nat 2 <> 0 /\
  divides_only_by (Z.of_nat 2)
    (generate_summary_report []
       (Some [ error_info "Acme" (APIError "timeout");
               PyDict [("hiring_status", PyStr "YES")] ])).
Proof.
  apply (report_divisions []
           (Some [ error_info "Acme" (APIError "timeout");
                   PyDict [("hiring_status", PyStr "YES")] ])).
  discriminate.
Defined.

(** ** The decoder: what it consumes and the fuel it needs *)

Lemma skip_ws_length (s : string) : (String.length (skip_ws s) <= String.length s)%nat.
Proof.
  induction s as [|c r IH]; simpl; [lia|]. destruct (is_ws c); simpl; lia.
Qed.

Lemma push_some (pre : string) (res : option (string * string)) (t out : string) :
  push pre res = Some (t, out) -> exists t', res = Some (t', out).
Proof.
  destruct res as [[t' out']|]; simpl; [|discriminate]. intros [= _ ->]. eauto.
Qed.

(** [scanstring] consumes the closing quote at least. *)
Lemma scanstring_shorter : forall (n : nat) (s t rest : string),
  (String.length s <= n)%nat -> scanstring s = Some (t, rest) ->
  (String.length rest < String.length s)%nat.
Proof.
  induction n as [|n IH]; intros s t rest L H;
    (destruct s as [|c r]; [discriminate|]); simpl in L; [lia|].
  cbn [scanstring] in H.
  repeat match type of H with
    | Some _ = Some _ => injection H as _ <-; simpl; lia
    | None = Some _ => discriminate
    | push _ (scanstring ?x) = Some _ =>
        apply push_some in H; destruct H as [t' H]; apply IH in H;
        simpl in *; lia
    | context [if ?b then _ else _] => destruct b
    | context [match ?x with _ => _ end] => destruct x; cbv beta match in H
    end.
Qed.

Lemma span_digits_length (s ds rest : string) :
  span_digits s = (ds, rest) ->
  (String.length ds + String.length rest = String.length s)%nat.
Proof.
  revert ds rest. induction s as [|c r IH]; intros ds rest; simpl.
  - intros [= <- <-]. reflexivity.
  - destruct (is_digit c).
    + destruct (span_digits r) as [ds' rest']. intros [= <- <-].
      specialize (IH _ _ eq_refl). simpl. lia.
    + intros [= <- <-]. reflexivity.
Qed.

Lemma match_digits_shorter (s ds rest : string) :
  match_digits s = Some (ds, rest) -> (String.length rest < String.length s)%nat.
Proof.
  unfold match_digits. destruct s as [|d r]; [discriminate|].
  destruct (Ascii.eqb d "0"); [intros [= _ <-]; simpl; lia|].
  destruct (is_digit d) eqn:D; [|discriminate].
  intros H.
  assert (E : span_digits (String d r) = (ds, rest)) by congruence.
  pose proof (span_digits_length _ _ _ E) as P.
  simpl in E. rewrite D in E. destruct (span_digits r). injection E as <- <-.
  simpl in *. lia.
Qed.

Lemma match_minus_length (s : string) :
  (String.length (snd (match_minus s)) <= String.length s)%nat.
Proof.
  destruct s as [|c r]; simpl; [lia|]. destruct (Ascii.eqb c "-"); simpl; lia.
Qed.

Lemma match_integer_shorter (s : string) (neg : bool) (ds rest : string) :
  match_integer s = Some (neg, ds, rest) ->
  (String.length rest < String.length s)%nat.
Proof.
  unfold match_integer. pose proof (match_minus_length s) as M.
  destruct (match_minus s) as [neg' s1]. simpl in M.
  destruct (match_digits s1) as [[ds' rest']|] eqn:D; [|discriminate].
  intros [= _ _ <-]. apply match_digits_shorter in D. lia.
Qed.

Lemma match_frac_length (s frac rest : string) :
  match_frac s = (frac, rest) -> (String.length rest <= String.length s)%nat.
Proof.
  unfold match_frac. destruct s as [|c r]; [intros [= _ <-]; lia|].
  destruct (Ascii.eqb c "."); [|intros [= _ <-]; lia].
  destruct (span_digits r) as [ds rest'] eqn:E.
  pose proof (span_digits_length _ _ _ E).
  destruct ds; intros [= _ <-]; simpl in *; lia.
Qed.

Lemma match_sign_length (s : string) :
  (String.length (snd (match_sign s)) <= String.length s)%nat.
Proof.
  destruct s as [|g r]; simpl; [lia|].
  destruct (Ascii.eqb g "-" || Ascii.eqb g "+"); simpl; lia.
Qed.

Lemma match_exp_length (s e rest : string) :
  match_exp s = (e, rest) -> (String.length rest <= String.length s)%nat.
Proof.
  unfold match_exp. destruct s as [|c r]; [intros [= _ <-]; lia|].
  destruct (Ascii.eqb c "e" || Ascii.eqb c "E"); [|intros [= _ <-]; lia].
  pose proof (match_sign_length r) as L.
  destruct (match_sign r) as [sign r1]. simpl in L.
  destruct (span_digits r1) as [ds rest'] eqn:E.
  pose proof (span_digits_length _ _ _ E).
  destruct ds; intros [= _ <-]; simpl in *; lia.
Qed.

Lemma match_number_shorter (s : string) (v : value) (rest : string) :
  match_number s = Some (v, rest) -> (String.length rest < String.length s)%nat.
Proof.
  unfold match_number.
  destruct (match_integer s) as [[[neg ds] r]|] eqn:I; [|discriminate].
  apply match_integer_shorter in I.
  destruct (match_frac r) as [frac r1] eqn:F. apply match_frac_length in F.
  destruct (match_exp r1) as [e r2] eqn:X. apply match_exp_length in X.
  destruct frac, e; intros [= _ <-]; lia.
Qed.

Lemma drop_length (n : nat) (c : ascii) (r : string) :
  (String.length (drop (S n) (String c r)) <= String.length r)%nat.
Proof.
  simpl. revert r. induction n as [|n IH]; intros r; simpl; [lia|].
  destruct r as [|a r']; simpl; [lia|]. specialize (IH r'). lia.
Qed.

(** Each of the three scanning functions consumes a character at least. *)
Lemma scanner_shorter : forall fuel : nat,
  (forall s v rest, scan_once fuel s = Scanned v rest ->
                    (String.length rest < String.length s)%nat) /\
  (forall s p rest, object_members fuel s = Scanned p rest ->
                    (String.length rest < String.length s)%nat) /\
  (forall s l rest, array_items fuel s = Scanned l rest ->
                    (String.length rest < String.length s)%nat).
Proof.
  induction fuel as [|fuel (IHs & IHo & IHa)]; [repeat split; discriminate|].
  split; [|split].
  - intros s v rest H. cbn [scan_once] in H.
    destruct s as [|c r]; [discriminate|].
    destruct (Ascii.eqb c dq).
    { destruct (scanstring r) as [[str rest']|] eqn:E; [|discriminate].
      injection H as _ <-. apply (scanstring_shorter _ _ _ _ (le_n _)) in E.
      simpl. lia. }
    destruct (Ascii.eqb c "{").
    { pose proof (skip_ws_length r) as W.
      destruct (skip_ws r) as [|c1 r1]; [discriminate|]. simpl in W.
      destruct (Ascii.eqb c1 dq).
      - destruct (object_members fuel r1) as [pairs rest'| |] eqn:E; try discriminate.
        injection H as _ <-. apply IHo in E. simpl. lia.
      - destruct (Ascii.eqb c1 "}"); [|discriminate].
        injection H as _ <-. simpl. lia. }
    destruct (Ascii.eqb c "[").
    { pose proof (skip_ws_length r) as W.
      destruct (skip_ws r) as [|c1 r1]; [discriminate|]. simpl in W.
      destruct (Ascii.eqb c1 "]"); [injection H as _ <-; simpl; lia|].
      destruct (array_items fuel (String c1 r1)) as [values rest'| |] eqn:E;
        try discriminate.
      injection H as _ <-. apply IHa in E. simpl in *. lia. }
    repeat match type of H with
      | Scanned _ (drop (S ?n) (String ?a ?b)) = Scanned _ _ =>
          replace rest with (drop (S n) (String a b)) by congruence;
          pose proof (drop_length n a b); cbn [String.length]; lia
      | context [if ?b then _ else _] => destruct b
      | context [match match_number ?x with _ => _ end] =>
          let E := fresh "E" in
          destruct (match_number x) as [[n rest']|] eqn:E;
          [injection H as _ <-; now apply match_number_shorter in E|]
      | Invalid = Scanned _ _ => discriminate
      end.
  - intros s p rest H. cbn [object_members] in H.
    destruct (scanstring s) as [[key r]|] eqn:K; [|discriminate].
    apply (scanstring_shorter _ _ _ _ (le_n _)) in K.
    pose proof (skip_ws_length r) as W.
    destruct (skip_ws r) as [|c r1]; [discriminate|]. simpl in W.
    destruct (Ascii.eqb c ":"); [|discriminate].
    pose proof (skip_ws_length r1) as W1.
    destruct (scan_once fuel (skip_ws r1)) as [v r2| |] eqn:V; try discriminate.
    apply IHs in V. pose proof (skip_ws_length r2) as W2.
    destruct (skip_ws r2) as [|c2 r3]; [discriminate|]. simpl in W2.
    destruct (Ascii.eqb c2 "}"); [injection H as _ <-; lia|].
    destruct (Ascii.eqb c2 ","); [|discriminate].
    pose proof (skip_ws_length r3) as W3.
    destruct (skip_ws r3) as [|c3 r4]; [discriminate|]. simpl in W3.
    destruct (Ascii.eqb c3 dq); [|discriminate].
    destruct (object_members fuel r4) as [pairs rest'| |] eqn:E; try discriminate.
    injection H as _ <-. apply IHo in E. lia.
  - intros s l rest H. cbn [array_items] in H.
    destruct (scan_once fuel s) as [v r| |] eqn:V; try discriminate.
    apply IHs in V. pose proof (skip_ws_length r) as W.
    destruct (skip_ws r) as [|c r1]; [discriminate|]. simpl in W.
    destruct (Ascii.eqb c "]"); [injection H as _ <-; lia|].
    destruct (Ascii.eqb c ","); [|discriminate].
    pose proof (skip_ws_length r1) as W1.
    destruct (array_items fuel (skip_ws r1)) as [values rest'| |] eqn:E;
      try discriminate.
    injection H as _ <-. apply IHa in E. lia.
Qed.

(** With fuel for twice the length of the text the scanner does not run
    out: [json_loads] answers [None] for a decoding error only. *)
Lemma scanner_fuel : forall fuel : nat,
  (forall s, (2 * String.length s + 1 <= fuel)%nat -> scan_once fuel s <> OutOfFuel) /\
  (forall s, (2 * String.length s + 1 <= fuel)%nat -> object_members fuel s <> OutOfFuel) /\
  (forall s, (2 * String.length s + 2 <= fuel)%nat -> array_items fuel s <> OutOfFuel).
Proof.
  induction fuel as [|fuel (IHs & IHo & IHa)]; [repeat split; intros; lia|].
  destruct (scanner_shorter fuel) as (Ps & Po & Pa).
  split; [|split].
  - intros s L. cbn [scan_once].
    destruct s as [|c r]; [discriminate|]. simpl in L.
    destruct (Ascii.eqb c dq); [destruct (scanstring r) as [[? ?]|]; discriminate|].
    destruct (Ascii.eqb c "{").
    { pose proof (skip_ws_length r) as W.
      destruct (skip_ws r) as [|c1 r1]; [discriminate|]. simpl in W.
      destruct (Ascii.eqb c1 dq).
      - specialize (IHo r1 ltac:(lia)).
        destruct (object_members fuel r1); [discriminate | discriminate | contradiction].
      - destruct (Ascii.eqb c1 "}"); discriminate. }
    destruct (Ascii.eqb c "[").
    { pose proof (skip_ws_length r) as W.
      destruct (skip_ws r) as [|c1 r1]; [discriminate|]. simpl in W.
      destruct (Ascii.eqb c1 "]"); [discriminate|].
      specialize (IHa (String c1 r1) ltac:(simpl; lia)).
      destruct (array_items fuel (String c1 r1));
        [discriminate | discriminate | contradiction]. }
    repeat match goal with
      | |- (if ?b then _ else _) <> _ => destruct b
      | |- match ?x with _ => _ end <> _ => destruct x as [[? ?]|]
      | |- _ => discriminate
      end.
  - intros s L. cbn [object_members].
    destruct (scanstring s) as [[key r]|] eqn:K; [|discriminate].
    apply (scanstring_shorter _ _ _ _ (le_n _)) in K.
    pose proof (skip_ws_length r) as W.
    destruct (skip_ws r) as [|c r1]; [discriminate|]. simpl in W.
    destruct (Ascii.eqb c ":"); [|discriminate].
    pose proof (skip_ws_length r1) as W1.
    specialize (IHs (skip_ws r1) ltac:(lia)).
    destruct (scan_once fuel (skip_ws r1)) as [v r2| |] eqn:V;
      [|discriminate|contradiction].
    apply Ps in V. pose proof (skip_ws_length r2) as W2.
    destruct (skip_ws r2) as [|c2 r3]; [discriminate|]. simpl in W2.
    destruct (Ascii.eqb c2 "}"); [discriminate|].
    destruct (Ascii.eqb c2 ","); [|discriminate].
    pose proof (skip_ws_length r3) as W3.
    destruct (skip_ws r3) as [|c3 r4]; [discriminate|]. simpl in W3.
    destruct (Ascii.eqb c3 dq); [|discriminate].
    specialize (IHo r4 ltac:(lia)).
    destruct (object_members fuel r4); [discriminate | discriminate | contradiction].
  - intros s L. cbn [array_items].
    specialize (IHs s ltac:(lia)).
    destruct (scan_once fuel s) as [v r| |] eqn:V; [|discriminate|contradiction].
    apply Ps in V. pose proof (skip_ws_length r) as W.
    destruct (skip_ws r) as [|c r1]; [discriminate|]. simpl in W.
    destruct (Ascii.eqb c "]"); [discriminate|].
    destruct (Ascii.eqb c ","); [|discriminate].
    pose proof (skip_ws_length r1) as W1.
    specialize (IHa (skip_ws r1) ltac:(lia)).
    destruct (array_items fuel (skip_ws r1)); [discriminate | discriminate | contradiction].
Qed.

Lemma json_loads_fuel (s : string) : scan_once (fuel_for s) (skip_ws s) <> OutOfFuel.
Proof.
  apply scanner_fuel. pose proof (skip_ws_length s). unfold fuel_for. lia.
Qed.

(** ** Encoding, then decoding *)

Lemma append_assoc (a b c : string) : (a ++ b) ++ c = a ++ (b ++ c).
Proof. induction a as [|x a IH]; simpl; [reflexivity | now rewrite IH]. Qed.

Lemma append_nil_r (a : string) : a ++ EmptyString = a.
Proof. induction a as [|x a IH]; simpl; [reflexivity | now rewrite IH]. Qed.

Lemma length_append (a b : string) :
  String.length (a ++ b) = (String.length a + String.length b)%nat.
Proof. induction a as [|x a IH]; simpl; [reflexivity | now rewrite IH]. Qed.

(** A structural induction on values that goes through the items of a list
    and the members of a dictionary. *)
Lemma value_induction (P : value -> Prop) :
  P PyNone ->
  (forall b, P (PyBool b)) ->
  (forall n, P (PyInt n)) ->
  (forall lit, P (PyFloat lit)) ->
  (forall s, P (PyStr s)) ->
  (forall l, Forall P l -> P (PyList l)) ->
  (forall d, Forall (fun kv => P (snd kv)) d -> P (PyDict d)) ->
  forall v, P v.
Proof.
  intros HN HB HI HF HS HL HD.
  fix rec 1. intros [| b | n | lit | s | l | d].
  - exact HN.
  - apply HB.
  - apply HI.
  - apply HF.
  - apply HS.
  - apply HL. induction l as [|x l IH]; constructor; [apply rec | exact IH].
  - apply HD. induction d as [|[k x] d IH]; constructor; [apply rec | exact IH].
Qed.

(** One character of a string, escaped and scanned. *)
Lemma scanstring_escape_char (c : ascii) (tail : string) :
  scanstring (escape_char c ++ tail) = push (String c EmptyString) (scanstring tail).
Proof.
  destruct c as [[|] [|] [|] [|] [|] [|] [|] [|]];
    try reflexivity;
    destruct tail as [|b [|u [|g1 [|g2 [|g3 [|g4 r3]]]]]]; reflexivity.
Qed.

Lemma scanstring_escape (s rest : string) :
  scanstring (escape s ++ String dq rest) = Some (s, rest).
Proof.
  induction s as [|c s IH]; [reflexivity|].
  cbn [escape]. rewrite append_assoc, scanstring_escape_char, IH. reflexivity.
Qed.

Lemma scan_once_basestring (fuel : nat) (s rest : string) :
  scan_once (S fuel) (encode_basestring s ++ rest) = Scanned (PyStr s) rest.
Proof.
  unfold encode_basestring, DQ. cbn [append]. rewrite append_assoc. cbn [append].
  cbn [scan_once]. change (Ascii.eqb dq dq) with true. cbv iota.
  now rewrite scanstring_escape.
Qed.

(** *** Integers *)

Lemma nzhead_head (d : Decimal.uint) :
  Decimal.nzhead d = Decimal.Nil \/ nonzero_head (Decimal.nzhead d) = true.
Proof. induction d; simpl; auto. Qed.

Lemma to_uint_head (p : positive) : nonzero_head (Pos.to_uint p) = true.
Proof.
  pose proof (DecimalPos.Unsigned.to_of (Pos.to_uint p)) as E.
  rewrite DecimalPos.Unsigned.of_to in E. simpl in E.
  pose proof (DecimalPos.Unsigned.to_uint_nonzero p) as Z.
  rewrite E in *. unfold Decimal.unorm in *.
  destruct (nzhead_head (Pos.to_uint p)) as [H|H]; [now rewrite H in Z|].
  now destruct (Decimal.nzhead (Pos.to_uint p)).
Qed.

Lemma span_digits_uint (u : Decimal.uint) (rest : string) :
  number_end rest = true ->
  span_digits (NilEmpty.string_of_uint u ++ rest) = (NilEmpty.string_of_uint u, rest).
Proof.
  intros H. induction u; simpl; try (rewrite IHu; reflexivity).
  destruct rest as [|c r]; [reflexivity|]. simpl in *.
  destruct (is_digit c); [discriminate | reflexivity].
Qed.

Lemma string_of_uint_head (u : Decimal.uint) :
  nonzero_head u = true ->
  exists c r, NilEmpty.string_of_uint u = String c r /\
              is_digit c = true /\ Ascii.eqb c "0" = false /\ Ascii.eqb c "-" = false.
Proof. destruct u; try discriminate; intros _; simpl; eauto 6. Qed.

Lemma match_digits_uint (u : Decimal.uint) (rest : string) :
  nonzero_head u = true -> number_end rest = true ->
  match_minus (NilEmpty.string_of_uint u ++ rest)
    = (false, NilEmpty.string_of_uint u ++ rest) /\
  match_digits (NilEmpty.string_of_uint u ++ rest)
    = Some (NilEmpty.string_of_uint u, rest).
Proof.
  intros H E. pose proof (span_digits_uint u rest E) as S.
  destruct (string_of_uint_head u H) as (c & r & R & D & Z & M). split.
  - rewrite R. cbn [append match_minus]. now rewrite M.
  - rewrite <- S, R. cbn [append]. unfold match_digits. now rewrite Z, D.
Qed.

Lemma int_of_digits_uint (u : Decimal.uint) :
  int_of_digits (NilEmpty.string_of_uint u) = Z.of_uint u.
Proof. unfold int_of_digits. now rewrite NilEmpty.usu. Qed.

Lemma number_end_no_tail (rest : string) :
  number_end rest = true ->
  match_frac rest = (EmptyString, rest) /\ match_exp rest = (EmptyString, rest).
Proof.
  destruct rest as [|c r]; [now split|]. simpl.
  destruct (is_digit c), (Ascii.eqb c "."), (Ascii.eqb c "e"), (Ascii.eqb c "E");
    try discriminate; now split.
Qed.

Lemma match_number_repr_int (n : Z) (rest : string) :
  number_end rest = true ->
  match_number (repr_int n ++ rest) = Some (PyInt n, rest).
Proof.
  intros E. destruct (number_end_no_tail rest E) as [F X].
  unfold match_number, match_integer, repr_int.
  destruct n as [|p|p]; simpl Z.to_int; cbn [NilEmpty.string_of_int].
  - simpl. now rewrite F, X.
  - destruct (match_digits_uint (Pos.to_uint p) rest (to_uint_head p) E) as [-> ->].
    rewrite F, X, int_of_digits_uint. unfold Z.of_uint.
    now rewrite DecimalPos.Unsigned.of_to.
  - cbn [append match_minus]. change (Ascii.eqb "-" "-") with true. cbv iota.
    destruct (match_digits_uint (Pos.to_uint p) rest (to_uint_head p) E) as [_ ->].
    rewrite F, X, int_of_digits_uint. unfold Z.of_uint.
    now rewrite DecimalPos.Unsigned.of_to.
Qed.

Lemma repr_int_head (n : Z) :
  exists c r, repr_int n = String c r /\ number_start c = true.
Proof.
  unfold repr_int, number_start. destruct n as [|p|p]; simpl Z.to_int;
    cbn [NilEmpty.string_of_int].
  - now exists "0"%char, EmptyString.
  - destruct (string_of_uint_head _ (to_uint_head p)) as (c & r & -> & D & _).
    exists c, r. now rewrite D.
  - now exists "-"%char, (NilEmpty.string_of_uint (Pos.to_uint p)).
Qed.

(** A text that starts like a number is scanned as a number. *)
Lemma scan_once_number (fuel : nat) (c : ascii) (r : string) (v : value)
  (rest : string) :
  number_start c = true ->
  match_number (String c r) = Some (v, rest) ->
  scan_once (S fuel) (String c r) = Scanned v rest.
Proof.
  intros H M. cbn [scan_once]. rewrite M. clear M.
  destruct c as [[|] [|] [|] [|] [|] [|] [|] [|]];
    try (vm_compute in H; discriminate H); reflexivity.
Qed.

Lemma number_start_token (c : ascii) :
  number_start c = true -> is_ws c = false /\ Ascii.eqb c "]" = false.
Proof.
  intros H.
  destruct c as [[|] [|] [|] [|] [|] [|] [|] [|]];
    try (vm_compute in H; discriminate H); now split.
Qed.

Lemma scan_once_repr_int (fuel : nat) (n : Z) (rest : string) :
  number_end rest = true ->
  scan_once (S fuel) (repr_int n ++ rest) = Scanned (PyInt n) rest.
Proof.
  intros E. pose proof (match_number_repr_int n rest E) as M.
  destruct (repr_int_head n) as (c & r & R & H). rewrite R in *.
  now apply scan_once_number.
Qed.

(** *** White space and the first character of an encoded value *)

Lemma skip_ws_indent (level : nat) (s : string) : skip_ws (indent level ++ s) = skip_ws s.
Proof. induction level as [|l IH]; [reflexivity | exact IH]. Qed.

Lemma skip_ws_newline_indent (level : nat) (s : string) :
  skip_ws (newline_indent level ++ s) = skip_ws s.
Proof.
  unfold newline_indent, LF. rewrite append_assoc. cbn [append skip_ws].
  change (is_ws "010") with true. cbv iota. apply skip_ws_indent.
Qed.

Lemma skip_ws_token (c : ascii) (r : string) :
  is_ws c = false -> skip_ws (String c r) = String c r.
Proof. intros H. simpl. now rewrite H. Qed.

(** An encoded value starts with a character that is neither white space
    nor a closing bracket. *)
Lemma iterencode_head (level : nat) (v : value) :
  float_free v = true ->
  exists c r, iterencode level v = String c r /\
              is_ws c = false /\ Ascii.eqb c "]" = false.
Proof.
  destruct v as [| [|] | n | lit | s | [|x xs] | [|[k x] xs]]; intros F;
    try discriminate; cbn [iterencode encode_basestring append];
    try (eexists _, _; split; [reflexivity | now split]).
  destruct (repr_int_head n) as (c & r & -> & H).
  exists c, r. split; [reflexivity | now apply number_start_token].
Qed.

Lemma skip_ws_iterencode (level : nat) (v : value) (s : string) :
  float_free v = true -> skip_ws (iterencode level v ++ s) = iterencode level v ++ s.
Proof.
  intros F. destruct (iterencode_head level v F) as (c & r & -> & W & _).
  now apply skip_ws_token.
Qed.

Lemma basestring_append (k tail : string) :
  encode_basestring k ++ tail = String dq (escape k ++ String dq tail).
Proof. unfold encode_basestring, DQ. cbn [append]. now rewrite append_assoc. Qed.

(** *** Dictionaries with distinct keys *)

Lemma dict_set_new (d : dict) (k : string) (v : value) :
  existsb (String.eqb k) (map fst d) = false -> dict_set d k v = (d ++ [(k, v)])%list.
Proof.
  induction d as [|[k' v'] d IH]; simpl; [reflexivity|].
  rewrite String.eqb_sym. destruct (String.eqb k' k); [discriminate|].
  simpl. intros H. now rewrite IH.
Qed.

Lemma existsb_app_false (k : string) (a b : list string) :
  existsb (String.eqb k) a = false -> existsb (String.eqb k) b = false ->
  existsb (String.eqb k) (a ++ b) = false.
Proof. intros Ha Hb. now rewrite existsb_app, Ha, Hb. Qed.

Lemma dict_of_pairs_from (pairs acc : dict) :
  distinct (map fst (acc ++ pairs)) = true ->
  fold_left (fun d kv => dict_set d (fst kv) (snd kv)) pairs acc = (acc ++ pairs)%list.
Proof.
  revert acc. induction pairs as [|[k v] pairs IH]; intros acc H; simpl.
  - now rewrite app_nil_r.
  - assert (N : existsb (String.eqb k) (map fst acc) = false).
    { clear IH. induction acc as [|[k' v'] acc IHa]; [reflexivity|].
      simpl in H. apply andb_prop in H as [H1 H2]. simpl.
      rewrite (IHa H2), orb_false_r.
      apply negb_true_iff in H1. rewrite map_app, existsb_app in H1.
      apply orb_false_iff in H1 as [_ H1]. simpl in H1.
      apply orb_false_iff in H1 as [H1 _]. now rewrite String.eqb_sym. }
    rewrite (dict_set_new acc k v N), IH; rewrite <- app_assoc; [reflexivity | exact H].
Qed.

Lemma dict_of_pairs_distinct (d : dict) :
  distinct (map fst d) = true -> dict_of_pairs d = d.
Proof. intros H. unfold dict_of_pairs. now rewrite (dict_of_pairs_from d []). Qed.

(** *** Lists *)

Lemma scan_once_bracket (fuel : nat) (r : string) :
  scan_once (S fuel) (String "[" r)
  = match skip_ws r with
    | String c1 r1 =>
        if Ascii.eqb c1 "]" then Scanned (PyList []) r1
        else match array_items fuel (String c1 r1) with
             | Scanned values rest => Scanned (PyList values) rest
             | Invalid => Invalid
             | OutOfFuel => OutOfFuel
             end
    | EmptyString => Invalid
    end.
Proof. reflexivity. Qed.

Lemma scan_once_brace (fuel : nat) (r : string) :
  scan_once (S fuel) (String "{" r)
  = match skip_ws r with
    | String c1 r1 =>
        if Ascii.eqb c1 dq then
          match object_members fuel r1 with
          | Scanned pairs rest => Scanned (PyDict (dict_of_pairs pairs)) rest
          | Invalid => Invalid
          | OutOfFuel => OutOfFuel
          end
        else if Ascii.eqb c1 "}" then Scanned (PyDict []) r1
        else Invalid
    | EmptyString => Invalid
    end.
Proof. reflexivity. Qed.

(** The items of a list, encoded one level deeper and followed by the
    closing line, are scanned back by the loop of [JSONArray]. *)
Lemma array_items_encoded (level : nat) (xs : list value) :
  Forall (fun y => float_free y = true /\ decodes y) xs ->
  forall (x : value) (fuel : nat) (rest : string),
    decodes x ->
    (list_sum (map (fun y => S (size y)) (x :: xs)) <= fuel)%nat ->
    array_items fuel
      (iterencode (S level) x
       ++ join_items (iterencode (S level)) (String "," (newline_indent (S level))) xs
       ++ newline_indent level ++ String "]" rest)
    = Scanned (x :: xs) rest.
Proof.
  induction 1 as [|y ys [Fy Dy] _ IH]; intros x fuel rest Dx L;
    (destruct fuel as [|fuel]; [simpl in L; lia|]); cbn [array_items].
  - cbn [join_items append].
    rewrite (Dx (S level) fuel); [|reflexivity | simpl in L; lia].
    rewrite skip_ws_newline_indent. reflexivity.
  - cbn [join_items]. rewrite !append_assoc. cbn [append].
    rewrite (Dx (S level) fuel); [|reflexivity | simpl in L; lia].
    cbn [skip_ws]. change (is_ws ",") with false. cbv iota.
    change (Ascii.eqb "," "]") with false. change (Ascii.eqb "," ",") with true.
    cbv iota. rewrite skip_ws_newline_indent, (skip_ws_iterencode _ _ _ Fy).
    rewrite (IH y fuel rest Dy); [reflexivity|]. simpl in *. lia.
Qed.

(** *** Dictionaries *)

(** The members of a dictionary, encoded one level deeper and followed by
    the closing line, are scanned back by the loop of [JSONObject]. *)
Lemma object_members_encoded (level : nat) (xs : list (string * value)) :
  Forall (fun kv => float_free (snd kv) = true /\ decodes (snd kv)) xs ->
  forall (k : string) (x : value) (fuel : nat) (rest : string),
    float_free x = true -> decodes x ->
    (list_sum (map (fun kv => S (size (snd kv))) ((k, x) :: xs)) <= fuel)%nat ->
    object_members fuel
      (escape k
       ++ String dq
            (String ":"
               (String " "
                  (iterencode (S level) x
                   ++ join_members (iterencode (S level))
                        (String "," (newline_indent (S level))) xs
                   ++ newline_indent level ++ String "}" rest))))
    = Scanned ((k, x) :: xs) rest.
Proof.
  induction 1 as [|[k' y] ys [Fy Dy] _ IH]; intros k x fuel rest Fx Dx L;
    (destruct fuel as [|fuel]; [simpl in L; lia|]); cbn [object_members];
    rewrite scanstring_escape; cbn [append skip_ws];
    change (is_ws ":") with false; cbv iota;
    change (Ascii.eqb ":" ":") with true; cbv iota; cbn [skip_ws];
    change (is_ws " ") with true; cbv iota;
    rewrite (skip_ws_iterencode _ _ _ Fx).
  - cbn [join_members append].
    rewrite (Dx (S level) fuel); [|reflexivity | simpl in L; lia].
    rewrite skip_ws_newline_indent. reflexivity.
  - cbn [join_members]. rewrite !append_assoc. cbn [append].
    rewrite (Dx (S level) fuel); [|reflexivity | simpl in L; lia].
    cbn [skip_ws]. change (is_ws ",") with false. cbv iota.
    change (Ascii.eqb "," "}") with false. change (Ascii.eqb "," ",") with true.
    cbv iota. rewrite skip_ws_newline_indent, basestring_append.
    cbn [skip_ws]. change (is_ws dq) with false. cbv iota.
    change (Ascii.eqb dq dq) with true. cbv iota. cbn [snd] in *.
    rewrite (IH k' y fuel rest Fy Dy); [reflexivity|]. simpl in *. lia.
Qed.

(** *** Every value *)

Lemma forallb_Forall {A : Type} (p : A -> bool) (l : list A) :
  forallb p l = true -> Forall (fun a => p a = true) l.
Proof. intros H. apply Forall_forall. now apply forallb_forall. Qed.

(** A value without floats and with distinct keys is scanned back from its
    encoded text, at every level of indentation. *)
Lemma iterencode_decodes (v : value) :
  unique_keys v = true -> float_free v = true -> decodes v.
Proof.
  induction v as [| b | n | lit | s | l IH | d IH] using value_induction;
    intros U F level fuel rest E L;
    (destruct fuel as [|fuel]; [simpl in L; lia|]).
  - destruct rest; reflexivity.
  - destruct b, rest; reflexivity.
  - now apply scan_once_repr_int.
  - discriminate.
  - apply scan_once_basestring.
  - destruct l as [|x xs]; [reflexivity|].
    cbn [unique_keys float_free forallb] in U, F.
    apply andb_prop in U as [Ux Uxs]. apply andb_prop in F as [Fx Fxs].
    apply Forall_cons_iff in IH as [IHx IHxs].
    cbn [iterencode]. rewrite !append_assoc. cbn [append].
    rewrite scan_once_bracket, skip_ws_newline_indent.
    destruct (iterencode_head (S level) x Fx) as (c & r & R & W & B).
    rewrite (skip_ws_iterencode _ _ _ Fx).
    match goal with |- match ?t with _ => _ end = _ => set (T := t) end.
    assert (HT : exists r', T = String c r').
    { subst T. rewrite R. cbn [append]. eauto. }
    destruct HT as [r' HT]. rewrite HT. cbv beta iota. rewrite B, <- HT. subst T.
    rewrite (array_items_encoded level xs);
      [reflexivity | | now apply IHx | simpl in L; simpl; lia].
    apply forallb_Forall in Uxs, Fxs. rewrite Forall_forall in *.
    intros y Y. split; [now apply Fxs | apply IHxs; auto].
  - destruct d as [|[k x] xs]; [reflexivity|].
    cbn [unique_keys float_free forallb map fst snd] in U, F.
    apply andb_prop in U as [K U]. apply andb_prop in U as [Ux Uxs].
    apply andb_prop in F as [Fx Fxs].
    apply Forall_cons_iff in IH as [IHx IHxs]. cbn [snd] in IHx.
    cbn [iterencode]. rewrite !append_assoc. cbn [append].
    rewrite scan_once_brace, skip_ws_newline_indent, basestring_append.
    cbn [skip_ws]. change (is_ws dq) with false. cbv iota.
    change (Ascii.eqb dq dq) with true. cbv iota.
    rewrite (object_members_encoded level xs);
      [| | exact Fx | now apply IHx | simpl in L; simpl; lia].
    + now rewrite (dict_of_pairs_distinct ((k, x) :: xs) K).
    + apply forallb_Forall in Uxs, Fxs. rewrite Forall_forall in *.
      intros kv Y. split; [now apply Fxs | apply IHxs; auto].
Qed.

(** *** The length of an encoded text *)

Lemma newline_indent_length (level : nat) : (1 <= String.length (newline_indent level))%nat.
Proof. unfold newline_indent, LF. simpl. lia. Qed.

Lemma join_items_size (enc : value -> string) (sep : string) (xs : list value) :
  (1 <= String.length sep)%nat ->
  Forall (fun y => (size y <= String.length (enc y))%nat) xs ->
  (list_sum (map (fun y => S (size y)) xs)
   <= String.length (join_items enc sep xs))%nat.
Proof.
  intros Hs. induction 1 as [|y ys Hy _ IH]; simpl; [lia|].
  rewrite !length_append. lia.
Qed.

Lemma join_members_size (enc : value -> string) (sep : string)
  (xs : list (string * value)) :
  (1 <= String.length sep)%nat ->
  Forall (fun kv => (size (snd kv) <= String.length (enc (snd kv)))%nat) xs ->
  (list_sum (map (fun kv => S (size (snd kv))) xs)
   <= String.length (join_members enc sep xs))%nat.
Proof.
  intros Hs. induction 1 as [|[k y] ys Hy _ IH]; [simpl; lia|].
  unfold list_sum in *. cbn [join_members map fold_right snd] in *.
  rewrite !length_append. simpl (String.length ": "). lia.
Qed.

(** The size of a value is at most the length of its encoded text, so the
    fuel of [json_loads] is enough for it. *)
Lemma size_le_length (v : value) :
  float_free v = true ->
  forall level, (size v <= String.length (iterencode level v))%nat.
Proof.
  induction v as [| b | n | lit | s | l IH | d IH] using value_induction;
    intros F level.
  - simpl. lia.
  - destruct b; simpl; lia.
  - destruct (repr_int_head n) as (c & r & R & _). simpl. rewrite R. simpl. lia.
  - discriminate.
  - simpl. lia.
  - destruct l as [|x xs]; [simpl; lia|].
    cbn [float_free forallb] in F. apply andb_prop in F as [Fx Fxs].
    apply Forall_cons_iff in IH as [IHx IHxs].
    specialize (IHx Fx (S level)).
    assert (J : (list_sum (map (fun y => S (size y)) xs)
                 <= String.length
                      (join_items (iterencode (S level))
                         (String "," (newline_indent (S level))) xs))%nat).
    { apply join_items_size; [simpl; lia|].
      apply forallb_Forall in Fxs. rewrite Forall_forall in *.
      intros y Y. apply IHxs; auto. }
    pose proof (newline_indent_length (S level)).
    cbn [iterencode size map append]. unfold list_sum in *.
    cbn [fold_right String.length]. rewrite !length_append.
    simpl String.length. rewrite ?length_append. simpl String.length. lia.
  - destruct d as [|[k x] xs]; [simpl; lia|].
    cbn [float_free forallb snd] in F. apply andb_prop in F as [Fx Fxs].
    apply Forall_cons_iff in IH as [IHx IHxs]. cbn [snd] in IHx.
    specialize (IHx Fx (S level)).
    assert (J : (list_sum (map (fun kv => S (size (snd kv))) xs)
                 <= String.length
                      (join_members (iterencode (S level))
                         (String "," (newline_indent (S level))) xs))%nat).
    { apply join_members_size; [simpl; lia|].
      apply forallb_Forall in Fxs. rewrite Forall_forall in *.
      intros kv Y. apply IHxs; auto. }
    pose proof (newline_indent_length (S level)).
    cbn [iterencode size map snd append]. unfold list_sum in *.
    cbn [fold_right String.length]. rewrite !length_append.
    simpl String.length. rewrite ?length_append. simpl String.length. lia.
Qed.

(** [json.loads(json.dumps(v, indent=2, ensure_ascii=False))] is [v], for a
    value without floats whose dictionaries have distinct keys. *)
Lemma json_round_trip (v : value) :
  unique_keys v = true -> float_free v = true -> json_loads (json_dumps v) = Some v.
Proof.
  intros U F. unfold json_loads, json_dumps.
  pose proof (skip_ws_iterencode 0%nat v EmptyString F) as W.
  rewrite append_nil_r in W. rewrite W.
  pose proof (iterencode_decodes v U F 0%nat (fuel_for (iterencode 0 v)) EmptyString)
    as D.
  rewrite append_nil_r in D. rewrite D; [reflexivity | reflexivity |].
  pose proof (size_le_length v F 0%nat). unfold fuel_for. lia.
Qed.



(** The file that [_save_progress] has written is read back as the list it
    was given. *)
Lemma saved_progress_reads_back (w : world) (results : list value)
  (filename : string) (st : state) :
  file_io w (io_calls st) = Written ->
  unique_keys (PyList results) = true -> float_free (PyList results) = true ->
  exists text,
    read_file (files (_save_progress w results filename st)) filename = Some text /\
    json_loads text = Some (PyList results).
Proof.
  intros W U F. exists (json_dumps (PyList results)).
  split; [|now apply json_round_trip].
  unfold _save_progress. rewrite W. cbn [files].
  generalize (json_dumps (PyList results)). generalize (files st).
  induction l as [|[f t] l IH]; intros text; simpl.
  - now rewrite String.eqb_refl.
  - destruct (String.eqb f filename) eqn:E; simpl; rewrite E; [reflexivity | apply IH].
Qed.

(** ** The dictionaries of decoded values have distinct keys *)

Lemma distinct_snoc (l : list string) (k : string) :
  distinct l = true -> existsb (String.eqb k) l = false ->
  distinct (l ++ [k]) = true.
Proof.
  induction l as [|a l IH]; simpl; [reflexivity|]. intros D N.
  apply andb_prop in D as [D1 D2]. apply orb_false_iff in N as [N1 N2].
  rewrite (IH D2 N2), andb_true_r, existsb_app. simpl.
  apply negb_true_iff in D1. rewrite D1, orb_false_r. simpl.
  now rewrite String.eqb_sym, N1.
Qed.

Lemma dict_set_keys (d : dict) (k : string) (v : value) :
  map fst (dict_set d k v)
  = if existsb (String.eqb k) (map fst d) then map fst d else (map fst d ++ [k])%list.
Proof.
  induction d as [|[k' v'] d IH]; simpl; [reflexivity|].
  rewrite (String.eqb_sym k k'). destruct (String.eqb k' k); simpl; [reflexivity|].
  rewrite IH. now destruct (existsb (String.eqb k) (map fst d)).
Qed.

Lemma dict_set_distinct (d : dict) (k : string) (v : value) :
  distinct (map fst d) = true -> distinct (map fst (dict_set d k v)) = true.
Proof.
  intros D. rewrite dict_set_keys.
  destruct (existsb (String.eqb k) (map fst d)) eqn:E; [exact D|].
  now apply distinct_snoc.
Qed.

Lemma dict_set_forall (p : value -> bool) (d : dict) (k : string) (v : value) :
  forallb (fun kv => p (snd kv)) d = true -> p v = true ->
  forallb (fun kv => p (snd kv)) (dict_set d k v) = true.
Proof.
  intros D V. induction d as [|[k' v'] d IH]; simpl in *; [now rewrite V|].
  apply andb_prop in D as [D1 D2].
  destruct (String.eqb k' k); simpl; [now rewrite V, D2|].
  now rewrite D1, (IH D2).
Qed.

Lemma dict_of_pairs_unique (pairs : list (string * value)) :
  forallb (fun kv => unique_keys (snd kv)) pairs = true ->
  unique_keys (PyDict (dict_of_pairs pairs)) = true.
Proof.
  unfold dict_of_pairs. cbn [unique_keys].
  assert (G : forall acc,
            distinct (map fst acc) = true ->
            forallb (fun kv => unique_keys (snd kv)) acc = true ->
            forallb (fun kv => unique_keys (snd kv)) pairs = true ->
            let d := fold_left (fun d kv => dict_set d (fst kv) (snd kv)) pairs acc in
            distinct (map fst d) && forallb (fun kv => unique_keys (snd kv)) d = true).
  { induction pairs as [|[k v] pairs IH]; intros acc D A P; simpl in *.
    - now rewrite D, A.
    - apply andb_prop in P as [P1 P2]. apply IH; [| |exact P2].
      + now apply dict_set_distinct.
      + now apply dict_set_forall. }
  intros P. now apply G.
Qed.

Lemma match_number_unique (s : string) (v : value) (rest : string) :
  match_number s = Some (v, rest) -> unique_keys v = true.
Proof.
  unfold match_number. destruct (match_integer s) as [[[neg ds] r]|]; [|discriminate].
  destruct (match_frac r) as [frac r1]. destruct (match_exp r1) as [e r2].
  destruct frac, e; intros [= <- _]; reflexivity.
Qed.

Lemma scanner_unique_keys : forall fuel : nat,
  (forall s v rest, scan_once fuel s = Scanned v rest -> unique_keys v = true) /\
  (forall s p rest, object_members fuel s = Scanned p rest ->
                    forallb (fun kv => unique_keys (snd kv)) p = true) /\
  (forall s l rest, array_items fuel s = Scanned l rest ->
                    forallb unique_keys l = true).
Proof.
  induction fuel as [|fuel (IHs & IHo & IHa)]; [repeat split; discriminate|].
  split; [|split].
  - intros s v rest H. cbn [scan_once] in H.
    destruct s as [|c r]; [discriminate|].
    destruct (Ascii.eqb c dq).
    { destruct (scanstring r) as [[str rest']|]; [|discriminate].
      now injection H as <- _. }
    destruct (Ascii.eqb c "{").
    { destruct (skip_ws r) as [|c1 r1]; [discriminate|].
      destruct (Ascii.eqb c1 dq).
      - destruct (object_members fuel r1) as [pairs rest'| |] eqn:E; try discriminate.
        injection H as <- _. apply dict_of_pairs_unique. now apply IHo in E.
      - destruct (Ascii.eqb c1 "}"); [|discriminate]. now injection H as <- _. }
    destruct (Ascii.eqb c "[").
    { destruct (skip_ws r) as [|c1 r1]; [discriminate|].
      destruct (Ascii.eqb c1 "]"); [now injection H as <- _|].
      destruct (array_items fuel (String c1 r1)) as [values rest'| |] eqn:E;
        try discriminate.
      injection H as <- _. now apply IHa in E. }
    repeat match type of H with
      | context [if ?b then _ else _] => destruct b
      | context [match match_number ?x with _ => _ end] =>
          let E := fresh "E" in
          destruct (match_number x) as [[n rest']|] eqn:E;
          [injection H as <- _; now apply match_number_unique in E|]
      | Scanned _ _ = Scanned _ _ => now injection H as <- _
      | Invalid = Scanned _ _ => discriminate
      end.
  - intros s p rest H. cbn [object_members] in H.
    destruct (scanstring s) as [[key r]|]; [|discriminate].
    destruct (skip_ws r) as [|c r1]; [discriminate|].
    destruct (Ascii.eqb c ":"); [|discriminate].
    destruct (scan_once fuel (skip_ws r1)) as [v r2| |] eqn:V; try discriminate.
    apply IHs in V.
    destruct (skip_ws r2) as [|c2 r3]; [discriminate|].
    destruct (Ascii.eqb c2 "}"); [injection H as <- _; simpl; now rewrite V|].
    destruct (Ascii.eqb c2 ","); [|discriminate].
    destruct (skip_ws r3) as [|c3 r4]; [discriminate|].
    destruct (Ascii.eqb c3 dq); [|discriminate].
    destruct (object_members fuel r4) as [pairs rest'| |] eqn:E; try discriminate.
    injection H as <- _. apply IHo in E. simpl. now rewrite V, E.
  - intros s l rest H. cbn [array_items] in H.
    destruct (scan_once fuel s) as [v r| |] eqn:V; try discriminate.
    apply IHs in V.
    destruct (skip_ws r) as [|c r1]; [discriminate|].
    destruct (Ascii.eqb c "]"); [injection H as <- _; simpl; now rewrite V|].
    destruct (Ascii.eqb c ","); [|discriminate].
    destruct (array_items fuel (skip_ws r1)) as [values rest'| |] eqn:E;
      try discriminate.
    injection H as <- _. apply IHa in E. simpl. now rewrite V, E.
Qed.

Lemma json_loads_unique_keys (s : string) (v : value) :
  json_loads s = Some v -> unique_keys v = true.
Proof.
  unfold json_loads.
  destruct (scan_once (fuel_for s) (skip_ws s)) as [v' rest| |] eqn:E; try discriminate.
  destruct (skip_ws rest); [|discriminate]. intros [= <-].
  now apply (proj1 (scanner_unique_keys _)) in E.
Qed.

(** Every record of [search_startup_info] satisfies the invariant of
    dictionaries that the round trip asks for. *)
Lemma search_startup_info_unique_keys (create : client) (startup_name : string) :
  unique_keys (search_startup_info create startup_name) = true.
Proof.
  destruct (search_startup_info_cases create startup_name)
    as [(e & _ & ->)|(raw & _ & [->|[->|(d & J & ->)]])]; try reflexivity.
  now apply json_loads_unique_keys in J.
Qed.

(** * Further properties of the two files *)

(** ** [strip] and [read_startup_list] *)







Lemma strip_trimmed (name : string) : trimmed name -> strip name = name.
Proof. intros (_ & L & R). unfold strip. now rewrite R. Qed.


Lemma rstrip_line_feed (s : string) : rstrip (s ++ LF) = rstrip s.
Proof.
  induction s as [|a r IH]; [reflexivity|]. cbn [append rstrip]. now rewrite IH.
Qed.

Lemma universal_newlines_without_cr (s : string) :
  ~ In "013"%char (chars s) -> universal_newlines s = s.
Proof.
  induction s as [|c r IH]; [reflexivity|]. intros H. cbn [universal_newlines].
  destruct (Ascii.eqb_spec c "013") as [->|N].
  - exfalso. apply H. now left.
  - rewrite IH; [reflexivity|]. intros I. apply H. now right.
Qed.

Lemma chars_append (a b : string) : chars (a ++ b) = (chars a ++ chars b)%list.
Proof. induction a as [|c a IH]; simpl; [reflexivity | now rewrite <- IH]. Qed.

Lemma split_lines_line (name rest : string) :
  ~ In "010"%char (chars name) ->
  split_lines (name ++ LF ++ rest) = (name ++ LF) :: split_lines rest.
Proof.
  induction name as [|c r IH]; intros H; [reflexivity|].
  cbn [append split_lines]. destruct (Ascii.eqb_spec c "010") as [->|N].
  - exfalso. apply H. now left.
  - rewrite IH; [reflexivity|]. intros I. apply H. now right.
Qed.

(** X2: a file that holds names one on a line is read back as these names,
    in their order, when each name is not empty, has no white space around
    it and no line break inside. *)
Theorem read_startup_list_unlines (names : list string) :
  Forall (fun name => trimmed name /\ ~ In "010"%char (chars name)
                      /\ ~ In "013"%char (chars name)) names ->
  read_startup_list (Ok (unlines names)) = names.
Proof.
  intros H. cbn [read_startup_list]. unfold readlines.
  rewrite universal_newlines_without_cr.
  - induction H as [|name names (T & NL & _) _ IH]; [reflexivity|].
    cbn [unlines]. rewrite (split_lines_line _ _ NL). cbn [filter].
    assert (S : strip (name ++ LF) = name).
    { unfold strip. rewrite rstrip_line_feed. now apply strip_trimmed. }
    rewrite S. destruct T as (N & _). apply String.eqb_neq in N. rewrite N.
    cbn [negb map]. now rewrite S, IH.
  - induction H as [|name names (_ & _ & CR) _ IH]; [intros []|].
    cbn [unlines]. rewrite !chars_append. intros I.
    apply in_app_or in I as [I|I]; [contradiction|].
    apply in_app_or in I as [I|I]; [|contradiction].
    destruct I as [I|[]]. discriminate I.
Qed.

Lemma read_startup_list_unlines_witness :
  read_startup_list (Ok (unlines ["OpenAI"; "Scale AI"; "Replicate"]))
  = ["OpenAI"; "Scale AI"; "Replicate"].
Proof.
  apply read_startup_list_unlines.
  repeat constructor; try discriminate; vm_compute; intuition discriminate.
Defined.

(** ** The loop of [scrape_startups] *)










(** ** The files of a run *)

Lemma read_store (fs : list (string * string)) (f text other : string) :
  read_file (store_file fs f text) other
  = if String.eqb f other then Some text else read_file fs other.
Proof.
  induction fs as [|[g t] fs IH]; simpl.
  - reflexivity.
  - destruct (String.eqb g f) eqn:G; simpl.
    + apply String.eqb_eq in G. subst g. now destruct (String.eqb f other).
    + rewrite IH. destruct (String.eqb g other) eqn:O; [|reflexivity].
      apply String.eqb_eq in O. subst g. rewrite String.eqb_sym in G. now rewrite G.
Qed.

Lemma save_progress_other (w : world) (results : list value) (filename other : string)
  (st : state) :
  filename <> other ->
  read_file (files (_save_progress w results filename st)) other
  = read_file (files st) other.
Proof.
  intros N. apply String.eqb_neq in N. unfold _save_progress. cbn [files].
  destruct (file_io w (io_calls st)); rewrite ?read_store, ?N; reflexivity.
Qed.

Lemma process_other (w : world) (output_file : option string)
  (results : list value) (st : state) (startup_name other : string) :
  configured output_file <> Some other ->
  read_file (files (snd (process w output_file results st startup_name))) other
  = read_file (files st) other.
Proof.
  intros N. unfold process. destruct (show_brief_result _); [|reflexivity].
  destruct (configured output_file) as [f|]; [|reflexivity]. cbn [snd].
  rewrite save_progress_other; [reflexivity | congruence].
Qed.

Lemma process_unconfigured (w : world) (output_file : option string)
  (results : list value) (st : state) (startup_name : string) :
  configured output_file = None ->
  files (snd (process w output_file results st startup_name)) = files st /\
  io_calls (snd (process w output_file results st startup_name)) = io_calls st.
Proof.
  intros N. unfold process. rewrite N. now destruct (show_brief_result _).
Qed.

Lemma scrape_startups_untouched (w : world) (delay : nat)
  (startup_list : list string) (output_file : option string) (st : state) :
  let st' := snd (scrape_startups w delay startup_list output_file st) in
  (forall other, configured output_file <> Some other ->
                 read_file (files st') other = read_file (files st) other) /\
  (configured output_file = None ->
   files st' = files st /\ io_calls st' = io_calls st).
Proof.
  assert (L : forall names n i results st0,
            let st1 := snd (loop w delay output_file n i names results st0) in
            (forall other, configured output_file <> Some other ->
                           read_file (files st1) other = read_file (files st0) other) /\
            (configured output_file = None ->
             files st1 = files st0 /\ io_calls st1 = io_calls st0)).
  { induction names as [|name names IH]; intros n i results st0; cbn [loop].
    - now split.
    - pose proof (process_other w output_file results st0 name) as O.
      pose proof (process_unconfigured w output_file results st0 name) as U.
      destruct (process w output_file results st0 name) as [results1 st1].
      cbn [snd] in *.
      destruct (IH n (S i) results1 (if (i <? n)%nat then sleep delay st1 else st1))
        as [O' U'].
      cbv zeta in *. split.
      + intros other N. rewrite (O' other N), <- (O other N).
        now destruct (i <? n)%nat.
      + intros N. destruct (U' N) as [F I], (U N) as [F0 I0]. rewrite F, I.
        now destruct (i <? n)%nat. }
  unfold scrape_startups. destruct startup_list as [|name names]; [now split|].
  specialize (L (name :: names) (List.length (name :: names)) 1%nat [] st).
  destruct (loop _ _ _ _ _ _ _ _) as [results st']. exact L.
Qed.

(** X6: a run writes its checkpoint file and no other: every other file is
    after the run what it was before, and without a checkpoint path (none,
    or the empty one) no file is opened at all. *)
Theorem scrape_startups_files (w : world) (delay : nat)
  (startup_list : list string) (output_file : option string) (st : state) :
  let st' := snd (scrape_startups w delay startup_list output_file st) in
  (forall other, configured output_file <> Some other ->
                 read_file (files st') other = read_file (files st) other) /\
  (configured output_file = None ->
   files st' = files st /\ io_calls st' = io_calls st).
Proof. exact (scrape_startups_untouched w delay startup_list output_file st). Qed.

Lemma error_info_record_like (startup_name : string) (e : exception) :
  record_like (error_info startup_name e).
Proof. split; [unfold error_info; eauto | reflexivity]. Qed.

Lemma search_startup_info_record_like (create : client) (startup_name : string) :
  record_like (search_startup_info create startup_name).
Proof.
  split; [apply search_startup_info_dict | apply search_startup_info_unique_keys].
Qed.

Lemma process_record_like (w : world) (output_file : option string)
  (results : list value) (st : state) (startup_name : string) :
  Forall record_like results ->
  Forall record_like (fst (process w output_file results st startup_name)).
Proof.
  intros H. unfold process.
  assert (R : Forall record_like
                (results ++ [search_startup_info (create w (api_calls st)) startup_name])).
  { apply Forall_app. split; [exact H|].
    constructor; [apply search_startup_info_record_like | constructor]. }
  destruct (show_brief_result _); [now destruct (configured output_file)|].
  cbn [fst]. apply Forall_app. split; [exact R|].
  constructor; [apply error_info_record_like | constructor].
Qed.

Lemma loop_record_like (w : world) (delay : nat) (output_file : option string)
  (n : nat) (names : list string) : forall i results st,
  Forall record_like results ->
  Forall record_like (fst (loop w delay output_file n i names results st)).
Proof.
  induction names as [|name names IH]; intros i results st H; cbn [loop]; [exact H|].
  pose proof (process_record_like w output_file results st name H) as P.
  destruct (process w output_file results st name) as [results1 st1].
  now apply IH.
Qed.

Lemma scrape_startups_records (w : world) (delay : nat)
  (startup_list : list string) (output_file : option string) (st : state) :
  Forall record_like (fst (scrape_startups w delay startup_list output_file st)).
Proof.
  unfold scrape_startups. destruct startup_list as [|name names]; [constructor|].
  pose proof (loop_record_like w delay output_file (List.length (name :: names))
                (name :: names) 1 [] st (Forall_nil _)) as L.
  destruct (loop _ _ _ _ _ _ _ _) as [results st']. exact L.
Qed.

(** X7: every record that a run returns is a dictionary in which each key
    occurs once, whatever the capability answered. *)
Theorem scrape_startups_record_like (w : world) (delay : nat)
  (startup_list : list string) (output_file : option string) (st : state) :
  Forall record_like (fst (scrape_startups w delay startup_list output_file st)).
Proof. apply scrape_startups_records. Qed.








(** The list that [process] returns starts with the list it was given. *)
Lemma process_appends (w : world) (output_file : option string)
  (results : list value) (st : state) (startup_name : string) :
  exists more,
    fst (process w output_file results st startup_name) = (results ++ more)%list.
Proof.
  unfold process. destruct (show_brief_result _).
  - destruct (configured output_file); cbn [fst]; eauto.
  - cbn [fst]. rewrite <- app_assoc. eauto.
Qed.

(** X10: the list of a run only grows: the loop keeps every record it was
    given, in place, and a run returns at least one and at most two records
    for each name. *)
Theorem scrape_startups_grows (w : world) (delay : nat)
  (startup_list : list string) (output_file : option string) (st : state) :
  (forall n i names results st1,
     exists more,
       fst (loop w delay output_file n i names results st1) = (results ++ more)%list) /\
  (List.length startup_list
   <= List.length (fst (scrape_startups w delay startup_list output_file st))
   <= 2 * List.length startup_list)%nat.
Proof.
  split; [|apply scrape_startups_length].
  intros n i names. revert i.
  induction names as [|name names IH]; intros i results st1; cbn [loop].
  - exists []. now rewrite app_nil_r.
  - destruct (process_appends w output_file results st1 name) as [more P].
    destruct (process w output_file results st1 name) as [results1 st2].
    cbn [fst] in P. subst results1.
    destruct (IH (S i) (results ++ more)%list
                (if (i <? n)%nat then sleep delay st2 else st2)) as [more' Q].
    rewrite Q, <- app_assoc. eauto.
Qed.

(** ** JSON inside prose *)

Lemma find_from_after (c : ascii) (p r : string) : forall i,
  ~ In c (chars p) ->
  find_from (String c EmptyString) (p ++ String c r) i = i + len p.
Proof.
  induction p as [|a p IH]; intros i H; cbn [append find_from String.prefix].
  - destruct (ascii_dec c c) as [_|N]; [|contradiction].
    replace (String.prefix EmptyString r) with true by now destruct r.
    unfold len. simpl. lia.
  - destruct (ascii_dec c a) as [->|N]; [exfalso; apply H; now left|].
    rewrite IH; [|intros I; apply H; now right].
    unfold len. cbn [String.length]. lia.
Qed.

Lemma rfind_from_before (c : ascii) (x suffix : string) : forall i,
  0 <= i -> ~ In c (chars suffix) ->
  rfind_from (String c EmptyString) (x ++ String c suffix) i = i + len x.
Proof.
  induction x as [|a x IH]; intros i Hi H; cbn [append rfind_from].
  - rewrite (proj2 (rfind_from_absent c suffix (i + 1) ltac:(lia)) H).
    cbn [Z.eqb String.prefix]. destruct (ascii_dec c c) as [_|N]; [|contradiction].
    replace (String.prefix EmptyString suffix) with true by now destruct suffix.
    unfold len. simpl. lia.
  - rewrite (IH (i + 1) ltac:(lia) H).
    replace (i + 1 + len x =? -1) with false
      by (symmetry; apply Z.eqb_neq; unfold len; lia).
    unfold len. cbn [String.length]. lia.
Qed.

Lemma substring_skip (p s : string) (n : nat) :
  String.substring (String.length p) n (p ++ s) = String.substring 0 n s.
Proof. induction p as [|a p IH]; [reflexivity | exact IH]. Qed.

Lemma substring_front (a b : string) :
  String.substring 0 (String.length a) (a ++ b) = a.
Proof.
  induction a as [|c a IH]; cbn [String.length append String.substring].
  - now destruct b.
  - now rewrite IH.
Qed.

Lemma slice_middle (p obj suffix : string) :
  obj <> EmptyString ->
  slice (p ++ obj ++ suffix) (len p) (len p + len obj) = obj.
Proof.
  intros N. unfold slice, slice_bound, len. rewrite !length_append.
  assert (0 < String.length obj)%nat by (destruct obj; [contradiction | simpl; lia]).
  replace (Z.of_nat (String.length p) <? 0) with false
    by (symmetry; apply Z.ltb_ge; lia).
  replace (Z.of_nat (String.length p) + Z.of_nat (String.length obj) <? 0) with false
    by (symmetry; apply Z.ltb_ge; lia).
  rewrite !Z.min_l by lia.
  replace (Z.of_nat (String.length p)
           <? Z.of_nat (String.length p) + Z.of_nat (String.length obj)) with true
    by (symmetry; apply Z.ltb_lt; lia).
  rewrite Nat2Z.id.
  replace (Z.to_nat (Z.of_nat (String.length p) + Z.of_nat (String.length obj)
                     - Z.of_nat (String.length p))) with (String.length obj) by lia.
  now rewrite substring_skip, substring_front.
Qed.

(** The text between the first opening brace and the last closing brace. *)
Lemma json_str_embedded (p m suffix : string) :
  ~ In "{"%char (chars p) -> ~ In "}"%char (chars suffix) ->
  json_str (p ++ String "{" (m ++ "}") ++ suffix) = String "{" (m ++ "}").
Proof.
  intros Hp Hs. unfold json_str, find, rfind.
  cbn [append]. rewrite (find_from_after "{" p _ 0 Hp).
  assert (R : rfind_from "}" (p ++ String "{" ((m ++ "}") ++ suffix)) 0
              = len (p ++ String "{" m)).
  { replace (p ++ String "{" ((m ++ "}") ++ suffix))
      with ((p ++ String "{" m) ++ String "}" suffix)
      by (rewrite !append_assoc; cbn [append]; rewrite ?append_assoc; reflexivity).
    rewrite (rfind_from_before "}" _ suffix 0 ltac:(lia) Hs). lia. }
  rewrite R.
  replace (len (p ++ String "{" m) + 1) with (len p + len (String "{" (m ++ "}")))
    by (unfold len; rewrite !length_append; cbn [String.length];
        rewrite !length_append; simpl; lia).
  replace (0 + len p) with (len p) by lia.
  change (String "{" ((m ++ "}") ++ suffix)) with (String "{" (m ++ "}") ++ suffix).
  apply slice_middle. discriminate.
Qed.



Lemma json_dumps_dict_braces (d : dict) :
  exists m, json_dumps (PyDict d) = String "{" (m ++ "}").
Proof.
  unfold json_dumps. destruct d as [|[k x] xs]; [now exists EmptyString|].
  cbn [iterencode].
  exists (newline_indent 1 ++ encode_basestring k ++ ": " ++ iterencode 1 x
          ++ join_members (iterencode 1) ("," ++ newline_indent 1) xs
          ++ newline_indent 0).
  rewrite !append_assoc. reflexivity.
Qed.

(** X12: a record written as JSON by the encoder and wrapped in prose comes
    back as the same record, when it holds no float and the prose has no
    opening brace before it and no closing brace after it. *)
Theorem search_startup_info_encoded (startup_name p suffix : string) (d : dict) :
  ~ In "{"%char (chars p) -> ~ In "}"%char (chars suffix) ->
  unique_keys (PyDict d) = true -> float_free (PyDict d) = true ->
  search_startup_info (answering (p ++ json_dumps (PyDict d) ++ suffix)) startup_name
  = PyDict d.
Proof.
  intros Hp Hs U F. pose proof (json_round_trip (PyDict d) U F) as J.
  destruct (json_dumps_dict_braces d) as [m E]. rewrite E in *.
  unfold search_startup_info, answering. cbn [bind content first_text].
  unfold normalize.
  destruct (normalize_traced_cases startup_name (p ++ String "{" (m ++ "}") ++ suffix))
    as [(X & _)|[(_ & Y & _)|(_ & v' & Y & ->)]].
  - exfalso. apply find_absent in X. apply X. rewrite chars_append.
    apply in_or_app. right. now left.
  - rewrite json_str_embedded in Y by assumption. congruence.
  - rewrite json_str_embedded in Y by assumption. cbn [snd]. congruence.
Qed.

Lemma search_startup_info_encoded_witness :
  search_startup_info
    (answering ("Sure! " ++ json_dumps (no_braces_record "Acme" "d") ++ " Anything else?"))
    "Acme"
  = no_braces_record "Acme" "d".
Proof.
  apply (search_startup_info_encoded "Acme" "Sure! " " Anything else?").
  - vm_compute. intuition discriminate.
  - vm_compute. intuition discriminate.
  - reflexivity.
  - reflexivity.
Defined.

(** ** What the report prints *)
























(** ** [save_results] *)

Lemma save_results_cases (w : world) (timestamp : string)
  (results : option (list value)) (filename : option string) (st : state) :
  let saved := match results with Some r => r | None => self_results st end in
  let name := match filename with
              | Some f => f
              | None => "startup_results_" ++ timestamp ++ ".json"
              end in
  let text := json_dumps (PyList saved) in
  (saved = [] /\ save_results w timestamp results filename st = (None, st)) \/
  (saved <> [] /\
   save_results w timestamp results filename st
   = if String.eqb name EmptyString then (None, count_io (files st) st)
     else match file_io w (io_calls st) with
          | Written => (Some name, count_io (store_file (files st) name text) st)
          | OpenFault _ => (None, count_io (files st) st)
          | WriteFault kept _ =>
              (None, count_io (store_file (files st) name (take kept text)) st)
          end).
Proof.
  intros saved name text. unfold save_results. fold saved.
  destruct saved as [|r rs] eqn:E; [left; now split|]. right.
  split; [discriminate|]. reflexivity.
Qed.

(** X15: [save_results] returns a file name exactly when there is a record
    to save, the name is not empty and the file system writes the file; the
    name is the one that was given or, when none was given,
    [startup_results_] followed by the time stamp and [.json].  With nothing
    to save, an explicit empty list included, it returns [None] and opens no
    file. *)
Theorem save_results_name (w : world) (timestamp : string)
  (results : option (list value)) (filename : option string) (st : state) :
  let saved := match results with Some r => r | None => self_results st end in
  let name := match filename with
              | Some f => f
              | None => "startup_results_" ++ timestamp ++ ".json"
              end in
  let out := save_results w timestamp results filename st in
  (forall f, fst out = Some f
             <-> saved <> [] /\ f = name /\ name <> EmptyString /\
                 file_io w (io_calls st) = Written) /\
  (saved = [] -> out = (None, st)).
Proof.
  intros saved name out.
  destruct (save_results_cases w timestamp results filename st) as [[E S]|[N S]];
    fold saved name out in E, S || fold saved name out in N, S.
  - split; [|intros _; exact S]. intros f. rewrite S. cbn [fst].
    split; [discriminate | intros [X _]; contradiction].
  - split; [|intros E; contradiction]. intros f. rewrite S.
    destruct (String.eqb name EmptyString) eqn:Q.
    + apply String.eqb_eq in Q. cbn [fst]. split; [discriminate|]. now intros (_ & _ & X & _).
    + apply String.eqb_neq in Q.
      destruct (file_io w (io_calls st)) as [|e|kept e]; cbn [fst].
      * split; [intros [= <-]; auto | intros (_ & -> & _); reflexivity].
      * split; [discriminate | intros (_ & _ & _ & X); discriminate].
      * split; [discriminate | intros (_ & _ & _ & X); discriminate].
Qed.

(** X16: when [save_results] returns a name, the file of that name holds
    the whole encoding of the saved list, one file was opened and the other
    files are as they were: a name is never returned for a file that a
    fault left unwritten or cut short. *)
Theorem save_results_file (w : world) (timestamp : string)
  (results : option (list value)) (filename : option string) (st : state)
  (f : string) :
  let saved := match results with Some r => r | None => self_results st end in
  let out := save_results w timestamp results filename st in
  fst out = Some f ->
  read_file (files (snd out)) f = Some (json_dumps (PyList saved)) /\
  io_calls (snd out) = S (io_calls st) /\
  (forall other, other <> f ->
                 read_file (files (snd out)) other = read_file (files st) other).
Proof.
  intros saved out.
  destruct (save_results_cases w timestamp results filename st) as [[E S]|[N S]];
    fold saved out in S; rewrite S; [discriminate|].
  destruct (String.eqb _ EmptyString); [discriminate|].
  destruct (file_io w (io_calls st)) as [|e|kept e]; try discriminate.
  cbn [fst snd count_io files io_calls]. intros [= <-].
  split; [|split; [reflexivity|]].
  - now rewrite read_store, String.eqb_refl.
  - intros other O. rewrite read_store.
    destruct (String.eqb _ other) eqn:Q; [|reflexivity].
    apply String.eqb_eq in Q. destruct (O (eq_sym Q)).
Qed.

Lemma save_results_file_witness :
  read_file
    (files (snd (save_results steady_world "20240101_120000"
                   (Some [PyDict [("startup_name", PyStr "Acme")]]) None initial)))
    "startup_results_20240101_120000.json"
  = Some (json_dumps (PyList [PyDict [("startup_name", PyStr "Acme")]])).
Proof.
  apply (save_results_file steady_world "20240101_120000"
           (Some [PyDict [("startup_name", PyStr "Acme")]]) None initial
           "startup_results_20240101_120000.json").
  reflexivity.
Defined.

(** ** The constructor and [main] *)

(** X17: the constructor succeeds exactly when a key that is not empty is
    available, and it keeps that key: the key that was given or, when none
    or an empty one was given, the one of the environment.  An empty key of
    the environment counts as no key; without a key the constructor raises
    [ValueError]. *)
Theorem init_key (api_key environment : option string) :
  (forall k, __init__ api_key environment = Constructed k
             <-> k <> EmptyString /\
                 (api_key = Some k \/ (given api_key = false /\ environment = Some k))) /\
  ((exists msg, __init__ api_key environment = ValueError msg)
   <-> given api_key = false /\ given environment = false).
Proof.
  unfold __init__, given.
  destruct api_key as [a|], environment as [e|];
    try destruct (String.eqb_spec a EmptyString) as [A|A];
    try destruct (String.eqb_spec e EmptyString) as [E|E];
    cbn [negb];
    repeat match goal with
           | |- context [String.eqb ?x EmptyString] =>
               destruct (String.eqb_spec x EmptyString); try contradiction
           end;
    (split; [intros k; split;
               [intros H; try discriminate H; injection H as <-; auto
               |intros [K [H|[G H]]]; try discriminate G; try discriminate H;
                injection H as <-; first [reflexivity | contradiction]]
            |split; [intros [msg H]; try discriminate H; auto
                    |intros [X Y]; try discriminate X; try discriminate Y; eauto]]).
Qed.


Lemma init_without_environment (environment : option string) :
  given environment = false -> exists msg, __init__ None environment = ValueError msg.
Proof.
  destruct environment as [k|]; unfold __init__, given; [|eauto].
  destruct (String.eqb k EmptyString); [eauto | discriminate].
Qed.

(** X18: [main] calls nothing and writes nothing unless a key is in the
    environment, [list.txt] gives a name and the line typed at the prompt
    is [y] once stripped and lowered: without a key, with no name (a file
    that is missing, unreadable or blank included) or with another answer,
    the state is left as it was. *)
Theorem main_stops (w : world) (environment : option string)
  (list_txt : result string) (answer : option string) (timestamp : string)
  (st : state) :
  given environment = false \/
  read_startup_list list_txt = [] \/
  (forall typed, answer = Some typed -> lower (strip typed) <> "y") ->
  main w environment list_txt answer timestamp st = st.
Proof.
  intros H. unfold main.
  destruct (__init__ None environment) as [k|msg] eqn:I; [|reflexivity].
  destruct H as [H|[H|H]].
  - destruct (init_without_environment environment H) as [msg E]. congruence.
  - now rewrite H.
  - destruct (read_startup_list list_txt) as [|name names]; [reflexivity|].
    destruct answer as [typed|]; [|reflexivity].
    specialize (H typed eq_refl). apply String.eqb_neq in H. now rewrite H.
Qed.

Lemma main_stops_witness :
  main steady_world (Some "key") (Ok ("Acme" ++ LF ++ "Bolt" ++ LF)) (Some "no")
       "20240101_120000" initial
  = initial.
Proof.
  apply (main_stops steady_world (Some "key") (Ok ("Acme" ++ LF ++ "Bolt" ++ LF))
           (Some "no") "20240101_120000" initial).
  right. right. intros typed [= <-]. vm_compute. discriminate.
Defined.



(** ** [print_startup_info] *)

Import StartupSearcherDisplay.


(** X21: [print_startup_info] shows every record that
    [search_startup_info] builds itself, whatever the name and the answer:
    the record of a failed call and the two fallback records.  It can raise
    only on a record that is the decoded answer, unchanged; the answer with
    an empty object is one, the subscript [startup_name] raises
    [KeyError] on it. *)
Theorem print_startup_info_of_search (create : client) (startup_name : string)
  (d : dict) :
  (search_startup_info create startup_name = PyDict d ->
   print_startup_info d = Shown \/
   exists raw, response_text create startup_name = Ok raw /\
               json_loads (json_str raw) = Some (PyDict d)) /\
  print_startup_info [] = KeyError "startup_name" /\
  search_startup_info (answering "{}") startup_name = PyDict [].
Proof.
  split; [|split; reflexivity]. intros H.
  destruct (search_startup_info_cases create startup_name)
    as [[e [_ E]] | [raw [T [E|[E|[d' [J E]]]]]]]; rewrite E in H.
  - injection H as <-. now left.
  - injection H as <-. now left.
  - injection H as <-. now left.
  - injection H as <-. right. now exists raw.
Qed.

Lemma print_startup_info_of_search_witness :
  print_startup_info
    [ ("startup_name", PyStr "Acme"); ("description", PyStr "no braces here");
      ("hiring_status", PyStr "unknown"); ("contact_info", contact_not_found) ]
  = Shown \/
  exists raw, response_text (answering "no braces here") "Acme" = Ok raw /\
              json_loads (json_str raw)
              = Some (PyDict [ ("startup_name", PyStr "Acme");
                               ("description", PyStr "no braces here");
                               ("hiring_status", PyStr "unknown");
                               ("contact_info", contact_not_found) ]).
Proof.
  apply (print_startup_info_of_search (answering "no braces here") "Acme").
  vm_compute. reflexivity.
Defined.
